(** * Payment core of the course platform: webhook authentication,
    payment-intent creation and the settlement state machine.

    The development embeds the two edge functions
    [supabase/functions/payment-webhook/index.ts] and
    [supabase/functions/create-payment/index.ts]. *)

From Stdlib Require Import ZArith List String Ascii Bool Lia Floats.
From Stdlib.Strings Require Byte.
Import ListNotations.
Local Open Scope Z_scope.
Local Open Scope list_scope.

(** ** The platform digest

    [crypto.subtle.digest('SHA-512', data)] is SHA-512 of FIPS 180-4 on
    64-bit words; a word is a [Z] reduced modulo [2^64]. *)
Module SHA512.

Definition w64 (x : Z) : Z := x mod 2 ^ 64.
Definition add64 (x y : Z) : Z := w64 (x + y).
Definition rotr (n x : Z) : Z :=
  Z.lor (Z.shiftr x n) (w64 (Z.shiftl x (64 - n))).
Definition shr (n x : Z) : Z := Z.shiftr x n.
Definition not64 (x : Z) : Z := Z.lxor x (2 ^ 64 - 1).

Definition Ch (x y z : Z) : Z := Z.lxor (Z.land x y) (Z.land (not64 x) z).
Definition Maj (x y z : Z) : Z :=
  Z.lxor (Z.lxor (Z.land x y) (Z.land x z)) (Z.land y z).
Definition Sigma0 (x : Z) : Z := Z.lxor (Z.lxor (rotr 28 x) (rotr 34 x)) (rotr 39 x).
Definition Sigma1 (x : Z) : Z := Z.lxor (Z.lxor (rotr 14 x) (rotr 18 x)) (rotr 41 x).
Definition sigma0 (x : Z) : Z := Z.lxor (Z.lxor (rotr 1 x) (rotr 8 x)) (shr 7 x).
Definition sigma1 (x : Z) : Z := Z.lxor (Z.lxor (rotr 19 x) (rotr 61 x)) (shr 6 x).

Definition K : list Z :=
  [
    0x428a2f98d728ae22; 0x7137449123ef65cd; 0xb5c0fbcfec4d3b2f; 0xe9b5dba58189dbbc;
    0x3956c25bf348b538; 0x59f111f1b605d019; 0x923f82a4af194f9b; 0xab1c5ed5da6d8118;
    0xd807aa98a3030242; 0x12835b0145706fbe; 0x243185be4ee4b28c; 0x550c7dc3d5ffb4e2;
    0x72be5d74f27b896f; 0x80deb1fe3b1696b1; 0x9bdc06a725c71235; 0xc19bf174cf692694;
    0xe49b69c19ef14ad2; 0xefbe4786384f25e3; 0x0fc19dc68b8cd5b5; 0x240ca1cc77ac9c65;
    0x2de92c6f592b0275; 0x4a7484aa6ea6e483; 0x5cb0a9dcbd41fbd4; 0x76f988da831153b5;
    0x983e5152ee66dfab; 0xa831c66d2db43210; 0xb00327c898fb213f; 0xbf597fc7beef0ee4;
    0xc6e00bf33da88fc2; 0xd5a79147930aa725; 0x06ca6351e003826f; 0x142929670a0e6e70;
    0x27b70a8546d22ffc; 0x2e1b21385c26c926; 0x4d2c6dfc5ac42aed; 0x53380d139d95b3df;
    0x650a73548baf63de; 0x766a0abb3c77b2a8; 0x81c2c92e47edaee6; 0x92722c851482353b;
    0xa2bfe8a14cf10364; 0xa81a664bbc423001; 0xc24b8b70d0f89791; 0xc76c51a30654be30;
    0xd192e819d6ef5218; 0xd69906245565a910; 0xf40e35855771202a; 0x106aa07032bbd1b8;
    0x19a4c116b8d2d0c8; 0x1e376c085141ab53; 0x2748774cdf8eeb99; 0x34b0bcb5e19b48a8;
    0x391c0cb3c5c95a63; 0x4ed8aa4ae3418acb; 0x5b9cca4f7763e373; 0x682e6ff3d6b2b8a3;
    0x748f82ee5defb2fc; 0x78a5636f43172f60; 0x84c87814a1f0ab72; 0x8cc702081a6439ec;
    0x90befffa23631e28; 0xa4506cebde82bde9; 0xbef9a3f7b2c67915; 0xc67178f2e372532b;
    0xca273eceea26619c; 0xd186b8c721c0c207; 0xeada7dd6cde0eb1e; 0xf57d4f7fee6ed178;
    0x06f067aa72176fba; 0x0a637dc5a2c898a6; 0x113f9804bef90dae; 0x1b710b35131c471b;
    0x28db77f523047d84; 0x32caab7b40c72493; 0x3c9ebe0a15c9bebc; 0x431d67c49c100d4c;
    0x4cc5d4becb3e42b6; 0x597f299cfc657e2a; 0x5fcb6fab3ad6faec; 0x6c44198c4a475817
  ].

Definition H0 : list Z :=
  [ 0x6a09e667f3bcc908; 0xbb67ae8584caa73b; 0x3c6ef372fe94f82b; 0xa54ff53a5f1d36f1;
    0x510e527fade682d1; 0x9b05688c2b3e6c1f; 0x1f83d9abfb41bd6b; 0x5be0cd19137e2179 ].

(** Padding: the bit 1, zeros up to 112 modulo 128 bytes, then the bit
    length of the message on 128 bits, big endian. *)
Fixpoint be_bytes (n : nat) (x : Z) : list Z :=
  match n with
  | O => []
  | S n' => Z.shiftr x (8 * Z.of_nat n') mod 256 :: be_bytes n' x
  end.

Definition pad (msg : list Z) : list Z :=
  let len := Z.of_nat (List.length msg) in
  let zeros := Z.to_nat ((111 - len) mod 128) in
  msg ++ [0x80] ++ repeat 0 zeros ++ be_bytes 16 (8 * len).

Definition be_word (bs : list Z) : Z :=
  fold_left (fun acc b => acc * 256 + b) bs 0.

Fixpoint chunks (fuel n : nat) (l : list Z) : list (list Z) :=
  match fuel with
  | O => []
  | S fuel' =>
      match l with
      | [] => []
      | _ => firstn n l :: chunks fuel' n (skipn n l)
      end
  end.

Definition words_of_block (block : list Z) : list Z :=
  map be_word (chunks 16 8 block).

(** Message schedule: the window holds the last sixteen words,
    oldest first. *)
Fixpoint schedule (n : nat) (window : list Z) : list Z :=
  match n with
  | O => []
  | S n' =>
      let w := add64 (add64 (sigma1 (nth 14 window 0)) (nth 9 window 0))
                     (add64 (sigma0 (nth 1 window 0)) (nth 0 window 0)) in
      w :: schedule n' (tl window ++ [w])
  end.

Definition expand (block : list Z) : list Z :=
  let w16 := words_of_block block in
  w16 ++ schedule 64 w16.

Record regs := Regs { ra : Z; rb : Z; rc : Z; rd : Z; re : Z; rf : Z; rg : Z; rh : Z }.

Definition round (r : regs) (kw : Z * Z) : regs :=
  let (k, w) := kw in
  let t1 := add64 (add64 (add64 (rh r) (Sigma1 (re r))) (Ch (re r) (rf r) (rg r)))
                  (add64 k w) in
  let t2 := add64 (Sigma0 (ra r)) (Maj (ra r) (rb r) (rc r)) in
  Regs (add64 t1 t2) (ra r) (rb r) (rc r) (add64 (rd r) t1) (re r) (rf r) (rg r).

Definition regs_of (h : list Z) : regs :=
  Regs (nth 0 h 0) (nth 1 h 0) (nth 2 h 0) (nth 3 h 0)
       (nth 4 h 0) (nth 5 h 0) (nth 6 h 0) (nth 7 h 0).

Definition list_of (r : regs) : list Z :=
  [ra r; rb r; rc r; rd r; re r; rf r; rg r; rh r].

Definition compress (h : list Z) (block : list Z) : list Z :=
  let r := fold_left round (combine K (expand block)) (regs_of h) in
  map (fun p => add64 (fst p) (snd p)) (combine h (list_of r)).

Definition digest_words (msg : list Z) : list Z :=
  let p := pad msg in
  fold_left compress (chunks (List.length p) 128 p) H0.

Definition digest (data : list Byte.byte) : list Byte.byte :=
  let msg := map (fun b => Z.of_N (Byte.to_N b)) data in
  let out := flat_map (be_bytes 8) (digest_words msg) in
  map (fun z => match Byte.of_N (Z.to_N z) with
                | Some b => b
                | None => Byte.x00
                end) out.

End SHA512.

Local Open Scope string_scope.

(** ** JavaScript strings

    A JavaScript string is modelled by its UTF-8 byte sequence (a Rocq
    [string]), so [TextEncoder.encode] is the list of its bytes.  A
    variable or JSON field that may be [undefined] is an [option string]. *)
Module Js.

(** [`${x}`]: a template literal renders [undefined] by its name. *)
Definition template (x : option string) : string :=
  match x with
  | Some s => s
  | None => "undefined"
  end.

(** Truthiness of a string or [undefined]: the empty string is falsy. *)
Definition truthy (x : option string) : option string :=
  match x with
  | Some s => if s =? "" then None else Some s
  | None => None
  end.

Definition TextEncoder_encode (s : string) : list Byte.byte :=
  list_byte_of_string s.

Definition digit_char (d : N) : ascii :=
  match get (N.to_nat d) "0123456789abcdefghijklmnopqrstuvwxyz" with
  | Some c => c
  | None => "?"%char
  end.

(** [Number.prototype.toString(radix)] on a natural number. *)
Fixpoint toString_digits (fuel : nat) (radix n : N) (acc : string) : string :=
  match fuel with
  | O => acc
  | S fuel' =>
      let acc' := String (digit_char (n mod radix)) acc in
      if (n / radix =? 0)%N then acc'
      else toString_digits fuel' radix (n / radix) acc'
  end.

Definition toString (radix n : N) : string :=
  toString_digits (S (N.to_nat (N.log2 n))) radix n "".

(** An integer inside a template literal. *)
Definition integer_string (z : Z) : string :=
  if (z <? 0)%Z then "-" ++ toString 10 (Z.to_N (- z)) else toString 10 (Z.to_N z).

(** [String.prototype.padStart(targetLength, padString)]. *)
Fixpoint fill (n : nat) (rest padString : string) : string :=
  match n with
  | O => ""
  | S n' =>
      match rest with
      | String c rest' => String c (fill n' rest' padString)
      | EmptyString =>
          match padString with
          | String c rest' => String c (fill n' rest' padString)
          | EmptyString => ""
          end
      end
  end.

Definition padStart (targetLength : nat) (padString s : string) : string :=
  if (targetLength <=? String.length s)%nat then s
  else fill (targetLength - String.length s) padString padString ++ s.

(** [Array.prototype.join('')]. *)
Definition join (parts : list string) : string := String.concat "" parts.

(** [String.prototype.includes]. *)
Fixpoint includes (needle s : string) : bool :=
  prefix needle s
  || match s with
     | EmptyString => false
     | String _ s' => includes needle s'
     end.

(** [String.prototype.replace] with a string pattern: the first
    occurrence only. *)
Fixpoint replace (pattern replacement s : string) : string :=
  if prefix pattern s
  then replacement ++ substring (String.length pattern) (String.length s) s
  else match s with
       | EmptyString => ""
       | String c s' => String c (replace pattern replacement s')
       end.

End Js.

(** ** Signature check of the webhook
    ([payment-webhook/index.ts], [verifyMidtransSignature])

    The handler passes the notification's fields as they are, so a field
    that is absent reaches the template literal as [undefined]. *)

Definition verifyMidtransSignature
    (orderId statusCode grossAmount : option string)
    (serverKey signatureKey : string) : bool :=
  let signatureString :=
    Js.template orderId ++ Js.template statusCode
      ++ Js.template grossAmount ++ serverKey in
  let data := Js.TextEncoder_encode signatureString in
  let hashBuffer := SHA512.digest data in
  let hashArray := hashBuffer in
  let calculatedSignature :=
    Js.join (map (fun b => Js.padStart 2 "0" (Js.toString 16 (Byte.to_N b)))
                 hashArray) in
  calculatedSignature =? signatureKey.

(** The spec's rendering: two lowercase hexadecimal digits per byte. *)
Definition lower_hex_digit (d : N) : ascii :=
  match d with
  | 0 => "0" | 1 => "1" | 2 => "2" | 3 => "3" | 4 => "4" | 5 => "5"
  | 6 => "6" | 7 => "7" | 8 => "8" | 9 => "9" | 10 => "a" | 11 => "b"
  | 12 => "c" | 13 => "d" | 14 => "e" | _ => "f"
  end%N%char.

Fixpoint lowercase_hex (bytes : list Byte.byte) : string :=
  match bytes with
  | [] => ""
  | b :: rest =>
      let n := Byte.to_N b in
      String (lower_hex_digit (n / 16)) (String (lower_hex_digit (n mod 16))
        (lowercase_hex rest))
  end.

Definition sha512_hex (s : string) : string :=
  lowercase_hex (SHA512.digest (Js.TextEncoder_encode s)).

(** ** Data model *)

Inductive PaymentStatus : Type := pending | settlement | failed.

Definition PaymentStatus_eqb (a b : PaymentStatus) : bool :=
  match a, b with
  | pending, pending | settlement, settlement | failed, failed => true
  | _, _ => false
  end.

(** Rows of the tables the two functions touch.  JavaScript numbers are
    IEEE doubles ([float]). *)
Record Course : Type := {
  course_id_ : string;
  price : float;
  is_free : bool;
  course_status : string
}.

Record Profile : Type := {
  profile_id : string;
  full_name : option string
}.

Record Payment : Type := {
  pay_id : string;
  pay_user_id : string;
  pay_course_id : string;
  amount : float;
  midtrans_order_id : string;
  status : PaymentStatus;
  midtrans_transaction_id : option string;
  payment_type : option string
}.

Record Enrollment : Type := {
  enr_user_id : string;
  enr_course_id : string;
  progress : Z
}.

Record Database : Type := {
  courses : list Course;
  profiles : list Profile;
  payments : list Payment;
  enrollments : list Enrollment
}.

Definition set_payments (ps : list Payment) (d : Database) : Database :=
  {| courses := courses d; profiles := profiles d;
     payments := ps; enrollments := enrollments d |}.

Definition set_enrollments (es : list Enrollment) (d : Database) : Database :=
  {| courses := courses d; profiles := profiles d;
     payments := payments d; enrollments := es |}.

Definition set_status (st : PaymentStatus) (p : Payment) : Payment :=
  {| pay_id := pay_id p; pay_user_id := pay_user_id p;
     pay_course_id := pay_course_id p; amount := amount p;
     midtrans_order_id := midtrans_order_id p; status := st;
     midtrans_transaction_id := midtrans_transaction_id p;
     payment_type := payment_type p |}.

(** A patch object: a field that is [undefined] is left out of the JSON
    body, so the column keeps its value. *)
Definition patched (new old : option string) : option string :=
  match new with
  | Some v => Some v
  | None => old
  end.

Definition set_transaction (tid ptype : option string) (p : Payment) : Payment :=
  {| pay_id := pay_id p; pay_user_id := pay_user_id p;
     pay_course_id := pay_course_id p; amount := amount p;
     midtrans_order_id := midtrans_order_id p; status := status p;
     midtrans_transaction_id := patched tid (midtrans_transaction_id p);
     payment_type := patched ptype (payment_type p) |}.

(** ** Requests, responses and the world a handler runs in *)

(** What a [catch] clause receives: an [Error] with its message, or any
    other thrown value. *)
Inductive Exception : Type :=
| Error (message : string)
| NotAnError.

(** The error object of a store call: the parsed body of the failed
    response, in which [message] may be missing. *)
Record PostgrestError : Type := { message : option string }.

(** A value placed in a response body: a string, or a member inherited
    from [Object.prototype] (a function or an object, never a string). *)
Inductive JsValue : Type :=
| JString (s : string)
| JInherited (name : string).

(** The object given to [JSON.stringify]. *)
Inductive Body : Type :=
| NoBody
| ErrorBody (error : JsValue)
| SuccessBody
| PaymentBody (payment_url : option string) (order_id : string)
              (transaction_id : option string).

Record Response : Type := { http_status : Z; body : Body }.

Inductive LogLevel : Type := LogInfo | LogError.

Record User : Type := { user_id : string; email : option string }.

(** The calls on the store, one per call site. *)
Inductive StoreCall : Type :=
| SelectCourse | InsertPayment | SelectProfile | UpdatePaymentTransaction
| UpdatePaymentStatus | InsertEnrollment.

Record Action : Type := { action_name : string; action_url : option string }.

Record MidtransData : Type := {
  md_transaction_id : option string;
  md_payment_type : option string;
  md_actions : option (list Action);
  md_redirect_url : option string
}.

Record ChargeRequest : Type := {
  charge_url : string;
  charge_order_id : string;
  charge_gross_amount : float;
  charge_first_name : string;
  charge_email : option string
}.

(** What [fetch] followed by [response.json()] gives: an exception, or
    the response's [ok] flag and parsed body. *)
Inductive GatewayOutcome : Type :=
| FetchThrows (e : Exception)
| Responded (ok : bool) (data : MidtransData).

(** Everything a request reads but does not own: environment variables,
    the authentication service, the clock, the store's availability (an
    outage makes a call fail with the given error and no effect), the
    identifier the store gives a new payment row, and the gateway. *)
Record Env : Type := {
  Deno_env_get : string -> option string;
  auth_getUser : string -> option User;
  Date_now : Z;
  outage : StoreCall -> option PostgrestError;
  generated_id : string;
  midtrans : ChargeRequest -> GatewayOutcome
}.

Record World : Type := {
  db : Database;
  console : list (LogLevel * string);
  charges : list ChargeRequest
}.

(** ** A small monad for handler bodies: state, [return new Response]
    and [throw] *)

Inductive Completion (A : Type) : Type :=
| Normal (a : A)
| Returned (r : Response)
| Thrown (e : Exception).
Arguments Normal {A} a.
Arguments Returned {A} r.
Arguments Thrown {A} e.

Definition Script (A : Type) : Type := World -> Completion A * World.

Definition ret {A} (a : A) : Script A := fun w => (Normal a, w).

Definition bind {A B} (m : Script A) (k : A -> Script B) : Script B :=
  fun w =>
    match m w with
    | (Normal a, w') => k a w'
    | (Returned r, w') => (Returned r, w')
    | (Thrown e, w') => (Thrown e, w')
    end.

Notation "x <- m ;; k" := (bind m (fun x => k))
  (at level 61, m at next level, right associativity).
Notation "m ;; k" := (bind m (fun _ => k))
  (at level 61, right associativity).

Definition throw {A} (e : Exception) : Script A := fun w => (Thrown e, w).

(** [return new Response(JSON.stringify(b), { status })]. *)
Definition respond {A} (st : Z) (b : Body) : Script A :=
  fun w => (Returned {| http_status := st; body := b |}, w).

Definition try_catch {A} (block : Script A) (handler : Exception -> Script A)
  : Script A :=
  fun w =>
    match block w with
    | (Thrown e, w') => handler e w'
    | r => r
    end.

Definition console_write (lvl : LogLevel) (label : string) : Script unit :=
  fun w => (Normal tt,
            {| db := db w; console := console w ++ [(lvl, label)];
               charges := charges w |}).
Definition console_log := console_write LogInfo.
Definition console_error := console_write LogError.

Definition get_db : Script Database := fun w => (Normal (db w), w).
Definition put_db (d : Database) : Script unit :=
  fun w => (Normal tt, {| db := d; console := console w; charges := charges w |}).

(** What the client receives and the world the request leaves.  A handler
    that ends without a response, or with an uncaught exception, gives
    the server's own 500. *)
Definition serve (handler : Script unit) (w : World) : Response * World :=
  match handler w with
  | (Returned r, w') => (r, w')
  | (_, w') => ({| http_status := 500; body := NoBody |}, w')
  end.

(** ** The store client *)

(** [x ?? '']. *)
Definition or_empty (x : option string) : string :=
  match x with
  | Some s => s
  | None => ""
  end.

(** What the client library throws for the URL and key it is given: it
    requires both to be non-empty.  A URL that is set is taken to be one
    the library accepts. *)
Definition client_refused (supabaseUrl supabaseKey : string)
  : option Exception :=
  if supabaseUrl =? "" then Some (Error "supabaseUrl is required.")
  else if supabaseKey =? "" then Some (Error "supabaseKey is required.")
  else None.

(** [createClient(supabaseUrl, supabaseKey)]. *)
Definition createClient (supabaseUrl supabaseKey : string) : Script unit :=
  match client_refused supabaseUrl supabaseKey with
  | Some e => throw e
  | None => ret tt
  end.

(** [UPDATE ... WHERE hit]: every row that matches is changed. *)
Definition update_where {A : Type} (hit : A -> bool) (change : A -> A)
    (rows : list A) : list A :=
  map (fun row => if hit row then change row else row) rows.

(** [.single()]: exactly one row, else an error. *)
Definition single {A} (rows : list A) : PostgrestError + A :=
  match rows with
  | [row] => inr row
  | _ => inl {| message :=
                  Some "JSON object requested, multiple (or no) rows returned" |}
  end.

(** [from('payments').update({ status }).eq('midtrans_order_id', v)
    .select().single()].  The filter value is rendered into the query
    ([eq.${v}]); as a single object is requested, the update is kept
    only when exactly one row is affected. *)
Definition order_matches (orderId : option string) (p : Payment) : bool :=
  midtrans_order_id p =? Js.template orderId.

Definition payments_update_status (env : Env) (st : PaymentStatus)
    (orderId : option string) : Script (PostgrestError + Payment) :=
  match outage env UpdatePaymentStatus with
  | Some e => ret (inl e)
  | None =>
      d <- get_db ;;
      match single (map (set_status st)
                        (filter (order_matches orderId) (payments d))) with
      | inl e => ret (inl e)
      | inr row =>
          put_db (set_payments
                    (update_where (order_matches orderId) (set_status st)
                                  (payments d)) d) ;;
          ret (inr row)
      end
  end.

Definition enrolled (u c : string) (e : Enrollment) : bool :=
  (enr_user_id e =? u) && (enr_course_id e =? c).

(** Modelled from the spec: the [enrollments] table, whose schema is not
    among the sources, has a uniqueness constraint on (userId, courseId);
    an insert that violates it fails with a duplicate-key error. *)
Definition insert_failure (env : Env) (row : Enrollment) (d : Database)
  : option PostgrestError :=
  match outage env InsertEnrollment with
  | Some e => Some e
  | None =>
      if existsb (enrolled (enr_user_id row) (enr_course_id row)) (enrollments d)
      then Some {| message :=
                     Some "duplicate key value violates unique constraint" |}
      else None
  end.

(** [from('enrollments').insert(row)]. *)
Definition enrollments_insert (env : Env) (row : Enrollment)
  : Script (option PostgrestError) :=
  d <- get_db ;;
  match insert_failure env row d with
  | Some e => ret (Some e)
  | None => put_db (set_enrollments (enrollments d ++ [row]) d) ;; ret None
  end.

(** ** The webhook ([payment-webhook/index.ts]) *)

Record Notification : Type := {
  order_id : option string;
  status_code : option string;
  gross_amount : option string;
  signature_key : option string;
  transaction_status : option string;
  fraud_status : option string
}.

(** [x === 'literal']. *)
Definition strict_eq (x : option string) (lit : string) : bool :=
  match x with
  | Some s => s =? lit
  | None => false
  end.

(** Lines 81-91: the gateway's vocabulary mapped to the stored status. *)
Definition paymentStatus_of (transactionStatus fraudStatus : option string)
  : PaymentStatus :=
  if strict_eq transactionStatus "capture" then
    if strict_eq fraudStatus "accept" then settlement else pending
  else if strict_eq transactionStatus "settlement" then settlement
  else if existsb (strict_eq transactionStatus) ["cancel"; "deny"; "expire"] then failed
  else pending.

(** [await req.json()]: the parsed body, or the exception it throws. *)
Definition req_json {A} (parsed : Exception + A) : Script A :=
  match parsed with
  | inl e => throw e
  | inr a => ret a
  end.

(** What line 116 throws when the insert error has no [message]. *)
Definition includes_of_undefined : string :=
  "Cannot read properties of undefined (reading 'includes')".

(** What line 51 throws when the body is the JSON value [null]. *)
Definition destructure_null : string :=
  "Cannot destructure property 'order_id' of 'notification' as it is null.".

(** The parsed body is a JSON object, read as a [Notification] (a missing
    field is [None]; a number, string, boolean or array has none of the
    fields), or the JSON value [null], given as [None]. *)
Definition handleNotification (env : Env)
    (json : Exception + option Notification) : Script unit :=
  try_catch
    (createClient (or_empty (Deno_env_get env "SUPABASE_URL"))
                  (or_empty (Deno_env_get env "SUPABASE_SERVICE_ROLE_KEY")) ;;
     parsed <- req_json json ;;
     console_log "Received Midtrans notification:" ;;
     match Js.truthy (Deno_env_get env "MIDTRANS_SERVER_KEY") with
     | None =>
         console_error "MIDTRANS_SERVER_KEY not configured" ;;
         respond 500 (ErrorBody (JString "Server configuration error"))
     | Some serverKey =>
         match parsed with
         | None => throw (Error destructure_null)
         | Some notification =>
             match Js.truthy (signature_key notification) with
             | None =>
                 console_error "Missing signature_key in notification" ;;
                 respond 401 (ErrorBody (JString "Invalid request"))
             | Some signatureKey =>
                 let isValid :=
                   verifyMidtransSignature (order_id notification)
                     (status_code notification) (gross_amount notification)
                     serverKey signatureKey in
                 if negb isValid then
                   console_error "Invalid Midtrans signature" ;;
                   respond 401 (ErrorBody (JString "Invalid signature"))
                 else
                   let orderId := order_id notification in
                   let paymentStatus :=
                     paymentStatus_of (transaction_status notification)
                                      (fraud_status notification) in
                   updated <- payments_update_status env paymentStatus orderId ;;
                   match updated with
                   | inl updateError =>
                       console_error "Error updating payment:" ;;
                       throw (Error "Failed to update payment")
                   | inr payment =>
                       (if PaymentStatus_eqb paymentStatus settlement then
                          enrollError <-
                            enrollments_insert env
                              {| enr_user_id := pay_user_id payment;
                                 enr_course_id := pay_course_id payment;
                                 progress := 0 |} ;;
                          match enrollError with
                          | Some e =>
                              match message e with
                              | None => throw (Error includes_of_undefined)
                              | Some text =>
                                  if negb (Js.includes "duplicate" text)
                                  then console_error "Error creating enrollment:"
                                  else ret tt
                              end
                          | None => ret tt
                          end
                        else ret tt) ;;
                       respond 200 SuccessBody
                   end
             end
         end
     end)
    (fun error =>
       console_error "Webhook error:" ;;
       let errorMessage :=
         match error with
         | Error m => m
         | NotAnError => "Unknown error occurred"
         end in
       respond 400 (ErrorBody (JString errorMessage))).

(** The function given to [serve]: the pre-flight answer, then the
    notification. *)
Definition payment_webhook (env : Env) (method : string)
    (json : Exception + option Notification) : Script unit :=
  if method =? "OPTIONS" then respond 200 NoBody
  else handleNotification env json.

(** ** Payment creation ([create-payment/index.ts]) *)

(** The verdict of [paymentRequestSchema.safeParse]: the message of the
    first issue, if any, or the validated data. *)
Inductive SafeParse : Type :=
| Invalid (first_issue : option string)
| Valid (courseId : string) (amount : float).

Definition errorMap : list (string * string) :=
  [ ("Missing authorization header", "Authentication required. Please log in.");
    ("Unauthorized", "Authentication required. Please log in.");
    ("Missing required fields", "Invalid payment request. Please try again.");
    ("Course not found", "The selected course does not exist or is not available.");
    ("Price mismatch", "The payment amount does not match the course price.");
    ("Failed to create payment record",
     "Payment processing is temporarily unavailable. Please try again later.");
    ("Failed to create Midtrans transaction",
     "Payment provider is temporarily unavailable. Please try again later.") ].

Definition unexpected_error : string :=
  "An unexpected error occurred. Please contact support if the issue persists.".

(** The members every object literal inherits. *)
Definition Object_prototype : list string :=
  [ "constructor"; "__defineGetter__"; "__defineSetter__"; "hasOwnProperty";
    "__lookupGetter__"; "__lookupSetter__"; "isPrototypeOf";
    "propertyIsEnumerable"; "toString"; "valueOf"; "__proto__";
    "toLocaleString" ].

Fixpoint own_property (obj : list (string * string)) (key : string)
  : option string :=
  match obj with
  | [] => None
  | (k, v) :: rest => if k =? key then Some v else own_property rest key
  end.

(** [obj[key]]: an own property, else an inherited member, else
    [undefined]. *)
Definition property (obj : list (string * string)) (key : string)
  : option JsValue :=
  match own_property obj key with
  | Some v => Some (JString v)
  | None =>
      if existsb (String.eqb key) Object_prototype
      then Some (JInherited key) else None
  end.

(** [x || fallback]. *)
Definition or_string (x : option JsValue) (fallback : string) : JsValue :=
  match x with
  | Some (JString s) => if s =? "" then JString fallback else JString s
  | Some v => v
  | None => JString fallback
  end.

Definition getUserMessage (error_message : string) : JsValue :=
  or_string (property errorMap error_message) unexpected_error.

Definition or_else (x y : option string) : option string :=
  match Js.truthy x with
  | Some s => Some s
  | None => y
  end.

Definition courses_select (env : Env) (courseId : string)
  : Script (PostgrestError + Course) :=
  match outage env SelectCourse with
  | Some e => ret (inl e)
  | None =>
      d <- get_db ;;
      ret (single (filter (fun c => course_id_ c =? courseId) (courses d)))
  end.

(** A stored payment carries the order id. *)
Definition order_id_taken (orderId : string) (d : Database) : bool :=
  existsb (fun p => midtrans_order_id p =? orderId) (payments d).

(** Modelled from the spec: the [payments] table, whose schema is not
    among the sources, is keyed by the order id; an insert that repeats
    one fails with a duplicate-key error. *)
Definition payment_insert_failure (env : Env) (row : Payment) (d : Database)
  : option PostgrestError :=
  match outage env InsertPayment with
  | Some e => Some e
  | None =>
      if order_id_taken (midtrans_order_id row) d
      then Some {| message :=
                     Some "duplicate key value violates unique constraint" |}
      else None
  end.

(** [from('payments').insert(row).select().single()]; the store gives
    the row its identifier. *)
Definition payments_insert (env : Env) (row : Payment)
  : Script (PostgrestError + Payment) :=
  d <- get_db ;;
  match payment_insert_failure env row d with
  | Some e => ret (inl e)
  | None =>
      put_db (set_payments (payments d ++ [row]) d) ;;
      ret (inr row)
  end.

Definition profiles_select (env : Env) (userId : string)
  : Script (option Profile) :=
  match outage env SelectProfile with
  | Some e => ret None
  | None =>
      d <- get_db ;;
      match single (filter (fun p => profile_id p =? userId) (profiles d)) with
      | inl _ => ret None
      | inr profile => ret (Some profile)
      end
  end.

(** [from('payments').update(patch).eq('id', id)], its result unread. *)
Definition payments_update_transaction (env : Env) (id : string)
    (tid ptype : option string) : Script unit :=
  match outage env UpdatePaymentTransaction with
  | Some e => ret tt
  | None =>
      d <- get_db ;;
      put_db (set_payments
                (update_where (fun p => pay_id p =? id)
                              (set_transaction tid ptype) (payments d)) d)
  end.

Definition fetch_charge (env : Env) (request : ChargeRequest)
  : Script (bool * MidtransData) :=
  fun w =>
    let w' := {| db := db w; console := console w;
                 charges := charges w ++ [request] |} in
    match midtrans env request with
    | FetchThrows e => (Thrown e, w')
    | Responded ok data => (Normal (ok, data), w')
    end.

Definition payment_url_of (data : MidtransData) : option string :=
  or_else
    (match md_actions data with
     | Some actions =>
         match find (fun a => action_name a =? "generate-qr-code") actions with
         | Some a => action_url a
         | None => None
         end
     | None => None
     end)
    (md_redirect_url data).

Definition createIntent (env : Env) (authorization : option string)
    (json : Exception + SafeParse) : Script unit :=
  try_catch
    (createClient (or_empty (Deno_env_get env "SUPABASE_URL"))
                  (or_empty (Deno_env_get env "SUPABASE_SERVICE_ROLE_KEY")) ;;
     match Js.truthy authorization with
     | None => throw (Error "Missing authorization header")
     | Some authHeader =>
         match auth_getUser env (Js.replace "Bearer " "" authHeader) with
         | None => throw (Error "Unauthorized")
         | Some user =>
             validationResult <- req_json json ;;
             match validationResult with
             | Invalid first_issue =>
                 let errorMessage :=
                   Js.template (or_else first_issue (Some "Invalid input")) in
                 console_error "Validation error:" ;;
                 respond 400 (ErrorBody (JString errorMessage))
             | Valid courseId amount_ =>
                 found <- courses_select env courseId ;;
                 match found with
                 | inl _ => throw (Error "Course not found")
                 | inr course =>
                     if negb (is_free course)
                        && negb (PrimFloat.eqb (price course) amount_)
                     then throw (Error "Price mismatch")
                     else
                       let orderId :=
                         "ORDER-" ++ Js.integer_string (Date_now env) ++ "-"
                           ++ substring 0 8 (user_id user) in
                       inserted <-
                         payments_insert env
                           {| pay_id := generated_id env;
                              pay_user_id := user_id user;
                              pay_course_id := courseId;
                              amount := amount_;
                              midtrans_order_id := orderId;
                              status := pending;
                              midtrans_transaction_id := None;
                              payment_type := None |} ;;
                       match inserted with
                       | inl paymentError =>
                           console_error "Payment creation error:" ;;
                           throw (Error "Failed to create payment record")
                       | inr payment =>
                           profile <- profiles_select env (user_id user) ;;
                           let isProduction :=
                             strict_eq (Deno_env_get env "MIDTRANS_IS_PRODUCTION")
                                       "true" in
                           let midtransUrl :=
                             if isProduction
                             then "https://api.midtrans.com/v2/charge"
                             else "https://api.sandbox.midtrans.com/v2/charge" in
                           let first_name :=
                             Js.template
                               (or_else
                                  (match profile with
                                   | Some p => full_name p
                                   | None => None
                                   end)
                                  (Some "User")) in
                           answer <-
                             fetch_charge env
                               {| charge_url := midtransUrl;
                                  charge_order_id := orderId;
                                  charge_gross_amount := amount_;
                                  charge_first_name := first_name;
                                  charge_email := email user |} ;;
                           let (ok, midtransData) := answer in
                           if negb ok then
                             console_error "Midtrans error:" ;;
                             throw (Error "Failed to create Midtrans transaction")
                           else
                             payments_update_transaction env (pay_id payment)
                               (md_transaction_id midtransData)
                               (md_payment_type midtransData) ;;
                             respond 200
                               (PaymentBody (payment_url_of midtransData) orderId
                                            (md_transaction_id midtransData))
                       end
                 end
             end
         end
     end)
    (fun error =>
       console_error "Payment creation error:" ;;
       let userMessage :=
         match error with
         | Error m => getUserMessage m
         | NotAnError => JString unexpected_error
         end in
       respond 400 (ErrorBody userMessage)).

Definition create_payment (env : Env) (method : string)
    (authorization : option string) (json : Exception + SafeParse)
  : Script unit :=
  if method =? "OPTIONS" then respond 200 NoBody
  else createIntent env authorization json.

(** ** Notions the properties are stated with *)

(** A notification is authenticated when the server secret is configured,
    a signature is present and [verifyMidtransSignature] accepts it. *)
Definition authenticated (env : Env) (n : Notification) : bool :=
  match Js.truthy (Deno_env_get env "MIDTRANS_SERVER_KEY"),
        Js.truthy (signature_key n) with
  | Some serverKey, Some signatureKey =>
      verifyMidtransSignature (order_id n) (status_code n) (gross_amount n)
        serverKey signatureKey
  | _, _ => false
  end.

(** Both variables [createClient] is given are set and non-empty. *)
Definition set_and_non_empty (env : Env) (name : string) : bool :=
  match Deno_env_get env name with
  | Some value => negb (value =? "")
  | None => false
  end.

Definition client_configured (env : Env) : bool :=
  set_and_non_empty env "SUPABASE_URL"
  && set_and_non_empty env "SUPABASE_SERVICE_ROLE_KEY".

(** The store's answer to a failed enrollment insert can be read: the
    error it gives carries a [message]. *)
Definition insert_error_readable (env : Env) : bool :=
  match outage env InsertEnrollment with
  | Some e =>
      match message e with
      | Some _ => true
      | None => false
      end
  | None => true
  end.

Definition webhook_ok : Response := {| http_status := 200; body := SuccessBody |}.

Definition bad_request (text : string) : Response :=
  {| http_status := 400; body := ErrorBody (JString text) |}.

Definition enrollment_for (p : Payment) : Enrollment :=
  {| enr_user_id := pay_user_id p; enr_course_id := pay_course_id p;
     progress := 0 |}.

(** The payments table with the mapped status written to the rows of the
    notification's order id. *)
Definition status_written (n : Notification) (d : Database) : Database :=
  set_payments
    (update_where (order_matches (order_id n))
                  (set_status (paymentStatus_of (transaction_status n)
                                                (fraud_status n)))
                  (payments d)) d.

(** The world an accepted notification leaves, written without the
    handler: the matching row takes the mapped status; on settlement the
    enrollment is inserted unless the insert fails; a failure whose
    message mentions a duplicate leaves no trace, one with another
    message is logged, and one without a message ends in the handler's
    [catch]. *)
Definition accepted_world (env : Env) (n : Notification) (p : Payment)
    (w : World) : World :=
  let st := paymentStatus_of (transaction_status n) (fraud_status n) in
  let d1 := status_written n (db w) in
  let received :=
    (console w ++ [(LogInfo, "Received Midtrans notification:")])%list in
  let row := enrollment_for (set_status st p) in
  match st with
  | settlement =>
      match insert_failure env row d1 with
      | Some e =>
          {| db := d1;
             console :=
               match message e with
               | Some text =>
                   if Js.includes "duplicate" text then received
                   else received ++ [(LogError, "Error creating enrollment:")]
               | None => received ++ [(LogError, "Webhook error:")]
               end;
             charges := charges w |}
      | None =>
          {| db := set_enrollments (enrollments d1 ++ [row]) d1;
             console := received; charges := charges w |}
      end
  | _ => {| db := d1; console := received; charges := charges w |}
  end.

(** The answer to an accepted notification: success, unless the
    enrollment insert failed with an error that has no message. *)
Definition accepted_response (env : Env) (n : Notification) (p : Payment)
    (w : World) : Response :=
  let st := paymentStatus_of (transaction_status n) (fraud_status n) in
  match st with
  | settlement =>
      match insert_failure env (enrollment_for (set_status st p))
                           (status_written n (db w)) with
      | Some e =>
          match message e with
          | Some _ => webhook_ok
          | None => bad_request includes_of_undefined
          end
      | None => webhook_ok
      end
  | _ => webhook_ok
  end.

(** The messages [getUserMessage] can draw from: the values of
    [errorMap] and the generic default. *)
Definition user_messages : list string :=
  (map snd errorMap ++ [unexpected_error])%list.

Definition set_amount (a : float) (p : Payment) : Payment :=
  {| pay_id := pay_id p; pay_user_id := pay_user_id p;
     pay_course_id := pay_course_id p; amount := a;
     midtrans_order_id := midtrans_order_id p; status := status p;
     midtrans_transaction_id := midtrans_transaction_id p;
     payment_type := payment_type p |}.

(** The same store with every stored amount replaced by [a]. *)
Definition repriced (a : float) (d : Database) : Database :=
  set_payments (map (set_amount a) (payments d)) d.

Definition repriced_world (a : float) (w : World) : World :=
  {| db := repriced a (db w); console := console w; charges := charges w |}.

(** ** A concrete scenario: one buyer, one course, one intent *)

Definition server_secret : string := "SB-Mid-server-Zq4kT9".

Definition siti : User :=
  {| user_id := "3f2a9c1e-5b7d-4c1a-9e2f-0a1b2c3d4e5f";
     email := Some "siti@example.com" |}.

Definition charge_answer : MidtransData :=
  {| md_transaction_id := Some "tx-0001";
     md_payment_type := Some "gopay";
     md_actions :=
       Some [ {| action_name := "generate-qr-code";
                 action_url := Some "https://api.sandbox.midtrans.com/v2/gopay/tx-0001/qr-code" |} ];
     md_redirect_url := None |}.

(** The variables of a deployed function. *)
Definition supabase_variables (name : string) : option string :=
  if name =? "SUPABASE_URL" then Some "https://abcd1234.supabase.co"
  else if name =? "SUPABASE_SERVICE_ROLE_KEY" then Some "service-role-key-Jw81"
  else None.

Definition env_ok : Env :=
  {| Deno_env_get :=
       fun name => if name =? "MIDTRANS_SERVER_KEY" then Some server_secret
                   else supabase_variables name;
     auth_getUser := fun token => if token =? "jwt-siti" then Some siti else None;
     Date_now := 1700000000000;
     outage := fun _ => None;
     generated_id := "b7e1d0aa-0000-4000-8000-000000000001";
     midtrans := fun _ => Responded true charge_answer |}.


Definition course_101 : Course :=
  {| course_id_ := "c-101"; price := 100000%float; is_free := false;
     course_status := "published" |}.

Definition intent (st : PaymentStatus) : Payment :=
  {| pay_id := "b7e1d0aa-0000-4000-8000-000000000001";
     pay_user_id := user_id siti;
     pay_course_id := "c-101";
     amount := 100000%float;
     midtrans_order_id := "ORDER-1700000000000-3f2a9c1e";
     status := st;
     midtrans_transaction_id := Some "tx-0001";
     payment_type := Some "gopay" |}.

Definition world_of (ps : list Payment) (es : list Enrollment) : World :=
  {| db := {| courses := [course_101];
              profiles := [ {| profile_id := user_id siti;
                               full_name := Some "Siti" |} ];
              payments := ps; enrollments := es |};
     console := [];
     charges := [] |}.

(** The gateway's side: sign a notification with the shared secret. *)
Definition gateway_sign (secret : string) (n : Notification) : Notification :=
  {| order_id := order_id n; status_code := status_code n;
     gross_amount := gross_amount n;
     signature_key :=
       Some (sha512_hex (Js.template (order_id n) ++ Js.template (status_code n)
                           ++ Js.template (gross_amount n) ++ secret));
     transaction_status := transaction_status n;
     fraud_status := fraud_status n |}.

Definition unsigned (orderId grossAmount : string)
    (transactionStatus fraudStatus : option string) : Notification :=
  {| order_id := Some orderId; status_code := Some "200";
     gross_amount := Some grossAmount; signature_key := None;
     transaction_status := transactionStatus; fraud_status := fraudStatus |}.

Definition notice (transactionStatus fraudStatus : option string) : Notification :=
  gateway_sign server_secret
    (unsigned "ORDER-1700000000000-3f2a9c1e" "100000.00"
              transactionStatus fraudStatus).

(** Responses and variants of the scenario used below. *)
Definition server_configuration_error : Response :=
  {| http_status := 500;
     body := ErrorBody (JString "Server configuration error") |}.

Definition invalid_request : Response :=
  {| http_status := 401; body := ErrorBody (JString "Invalid request") |}.


Definition notice_with_amount (grossAmount : string) : Notification :=
  gateway_sign server_secret
    (unsigned "ORDER-1700000000000-3f2a9c1e" grossAmount
              (Some "settlement") None).


(** ** Further notions *)

Definition is_lower_hex (c : ascii) : bool :=
  existsb (Ascii.eqb c) (list_ascii_of_string "0123456789abcdef").

(** The scenario's settlement notice with the first character of
    [status_code] moved to the end of [order_id], under the same
    signature. *)
Definition shifted_notice : Notification :=
  {| order_id := Some "ORDER-1700000000000-3f2a9c1e2";
     status_code := Some "00";
     gross_amount := Some "100000.00";
     signature_key := signature_key (notice (Some "settlement") None);
     transaction_status := Some "settlement";
     fraud_status := None |}.



(** A payment row without what the gateway's answer fills in. *)
Definition forget_transaction (p : Payment) : Payment :=
  {| pay_id := pay_id p; pay_user_id := pay_user_id p;
     pay_course_id := pay_course_id p; amount := amount p;
     midtrans_order_id := midtrans_order_id p; status := status p;
     midtrans_transaction_id := None; payment_type := None |}.

Definition midtrans_endpoint (env : Env) : string :=
  if strict_eq (Deno_env_get env "MIDTRANS_IS_PRODUCTION") "true"
  then "https://api.midtrans.com/v2/charge"
  else "https://api.sandbox.midtrans.com/v2/charge".






(** A deployment without the store's variables. *)
Definition env_no_client : Env :=
  {| Deno_env_get :=
       fun name => if name =? "MIDTRANS_SERVER_KEY" then Some server_secret
                   else None;
     auth_getUser := auth_getUser env_ok;
     Date_now := Date_now env_ok;
     outage := outage env_ok;
     generated_id := generated_id env_ok;
     midtrans := midtrans env_ok |}.

(** The enrollment insert fails with an error object that has no
    [message]. *)
Definition env_enrollments_unreadable : Env :=
  {| Deno_env_get := Deno_env_get env_ok;
     auth_getUser := auth_getUser env_ok;
     Date_now := Date_now env_ok;
     outage := fun call =>
       match call with
       | InsertEnrollment => Some {| message := None |}
       | _ => None
       end;
     generated_id := generated_id env_ok;
     midtrans := midtrans env_ok |}.

(** ** More of the platform's string functions *)
Module JsUrl.

(** [`${x}`] for a value that is a string or [null]. *)
Definition template_null (x : option string) : string :=
  match x with
  | Some s => s
  | None => "null"
  end.

(** [String.prototype.split(separator)] for a non-empty separator: while
    [skip] characters of a separator just found remain, they are passed
    over; [piece] is the piece being read. *)
Fixpoint split_from (separator : string) (skip : nat) (piece s : string)
  : list string :=
  match s with
  | EmptyString => [piece]
  | String c s' =>
      match skip with
      | S skip' => split_from separator skip' piece s'
      | O =>
          if prefix separator s
          then piece :: split_from separator (String.length separator - 1) "" s'
          else split_from separator 0 (piece ++ String c "") s'
      end
  end.

Definition split (separator s : string) : list string :=
  split_from separator 0 "" s.

(** The characters [encodeURIComponent] leaves as they are. *)
Definition unreserved (c : ascii) : bool :=
  let n := N_of_ascii c in
  ((48 <=? n) && (n <=? 57) || (65 <=? n) && (n <=? 90)
   || (97 <=? n) && (n <=? 122))%N
  || existsb (Ascii.eqb c) (list_ascii_of_string "-_.!~*'()").

Definition upper_hex_digit (d : N) : ascii :=
  match d with
  | 0 => "0" | 1 => "1" | 2 => "2" | 3 => "3" | 4 => "4" | 5 => "5"
  | 6 => "6" | 7 => "7" | 8 => "8" | 9 => "9" | 10 => "A" | 11 => "B"
  | 12 => "C" | 13 => "D" | 14 => "E" | _ => "F"
  end%N%char.

(** [encodeURIComponent]: every other byte of the UTF-8 encoding becomes
    a percent sign and two uppercase hexadecimal digits. *)
Fixpoint encodeURIComponent (s : string) : string :=
  match s with
  | EmptyString => ""
  | String c s' =>
      if unreserved c then String c (encodeURIComponent s')
      else String "%"
             (String (upper_hex_digit (N_of_ascii c / 16))
                (String (upper_hex_digit (N_of_ascii c mod 16))
                   (encodeURIComponent s')))
  end.

End JsUrl.

(** ** Certificate generation (the second function of
    [payment-webhook/index.ts], from line 135) *)
Module GenerateCertificate.

Record Certificate : Type := {
  cert_id : string;
  cert_user_id : string;
  cert_course_id : string;
  certificate_number : option string;
  qr_code_url : string
}.

(** The tables the function reads and writes: those of [Database], the
    [title] column of [courses] by course id, and [certificates]. *)
Record World : Type := {
  store : Database;
  titles : list (string * string);
  certificates : list Certificate;
  console : list (LogLevel * string)
}.

Inductive StoreCall : Type :=
| CheckCourse | SelectEnrollment | SelectCertificate | SelectTitle
| SelectFullName | InsertCertificate.

Definition Platform : Type := Env.

(** [platform] gives the environment variables and the authentication
    service; [certificate_number_rpc] is the data of
    [rpc('generate_certificate_number')], [None] for [null]. *)
Record Env : Type := {
  platform : Platform;
  outage : StoreCall -> option PostgrestError;
  certificate_number_rpc : option string;
  generated_id : string
}.

(** The verdict of [certificateRequestSchema.safeParse]. *)
Inductive SafeParse : Type :=
| Invalid (first_issue : option string)
| Valid (courseId : string).

Inductive Body : Type :=
| NoBody
| ErrorBody (error : JsValue)
| Existing (certificate : Certificate) (message : string)
| Issued (certificate : Certificate) (course_title user_name : option string)
         (verification_url : string).

Record Response : Type := { http_status : Z; body : Body }.

Inductive Completion (A : Type) : Type :=
| Normal (a : A)
| Returned (r : Response)
| Thrown (e : Exception).
Arguments Normal {A} a.
Arguments Returned {A} r.
Arguments Thrown {A} e.

Definition Script (A : Type) : Type := World -> Completion A * World.

Definition ret {A} (a : A) : Script A := fun w => (Normal a, w).

Definition bind {A B} (m : Script A) (k : A -> Script B) : Script B :=
  fun w =>
    match m w with
    | (Normal a, w') => k a w'
    | (Returned r, w') => (Returned r, w')
    | (Thrown e, w') => (Thrown e, w')
    end.

Declare Scope certificate_scope.
Notation "x <- m ;; k" := (bind m (fun x => k))
  (at level 61, m at next level, right associativity) : certificate_scope.
Notation "m ;; k" := (bind m (fun _ => k))
  (at level 61, right associativity) : certificate_scope.
Local Open Scope certificate_scope.

Definition throw {A} (e : Exception) : Script A := fun w => (Thrown e, w).

Definition respond {A} (st : Z) (b : Body) : Script A :=
  fun w => (Returned {| http_status := st; body := b |}, w).

Definition try_catch {A} (block : Script A) (handler : Exception -> Script A)
  : Script A :=
  fun w =>
    match block w with
    | (Thrown e, w') => handler e w'
    | r => r
    end.

Definition console_write (lvl : LogLevel) (label : string) : Script unit :=
  fun w => (Normal tt,
            {| store := store w; titles := titles w;
               certificates := certificates w;
               console := console w ++ [(lvl, label)] |}).
Definition console_log := console_write LogInfo.
Definition console_error := console_write LogError.

Definition get_world : Script World := fun w => (Normal w, w).

(** [createClient(supabaseUrl, supabaseKey)]. *)
Definition createClient (supabaseUrl supabaseKey : string) : Script unit :=
  match client_refused supabaseUrl supabaseKey with
  | Some e => throw e
  | None => ret tt
  end.

Definition req_json {A} (parsed : Exception + A) : Script A :=
  match parsed with
  | inl e => throw e
  | inr a => ret a
  end.

Definition serve (handler : Script unit) (w : World) : Response * World :=
  match handler w with
  | (Returned r, w') => (r, w')
  | (_, w') => ({| http_status := 500; body := NoBody |}, w')
  end.

Definition errorMap : list (string * string) :=
  [ ("Missing authorization header", "Authentication required. Please log in.");
    ("Unauthorized", "Authentication required. Please log in.");
    ("Missing course ID", "Invalid request. Please try again.");
    ("Course not found", "The selected course does not exist.");
    ("Enrollment not found",
     "Unable to generate certificate. Please ensure you are enrolled in this course.");
    ("Course not completed yet",
     "Certificate requires 100% course completion. Please finish all course materials.");
    ("Failed to create certificate",
     "Certificate generation is temporarily unavailable. Please try again later.") ].

Definition getUserMessage (error_message : string) : JsValue :=
  or_string (property errorMap error_message) unexpected_error.

(** [.maybeSingle()]: no row gives [null] without an error; the data is
    [null] as well when several rows match. *)
Definition maybeSingle {A} (rows : list A) : option A :=
  match rows with
  | [row] => Some row
  | _ => None
  end.

Definition select_course (env : Env) (courseId : string)
  : Script (PostgrestError + Course) :=
  match outage env CheckCourse with
  | Some e => ret (inl e)
  | None =>
      w <- get_world ;;
      ret (single (filter (fun c => course_id_ c =? courseId)
                          (courses (store w))))
  end.

Definition select_enrollment (env : Env) (userId courseId : string)
  : Script (PostgrestError + Enrollment) :=
  match outage env SelectEnrollment with
  | Some e => ret (inl e)
  | None =>
      w <- get_world ;;
      ret (single (filter (enrolled userId courseId) (enrollments (store w))))
  end.

Definition certified (userId courseId : string) (c : Certificate) : bool :=
  (cert_user_id c =? userId) && (cert_course_id c =? courseId).

Definition select_certificate (env : Env) (userId courseId : string)
  : Script (option Certificate) :=
  match outage env SelectCertificate with
  | Some e => ret None
  | None =>
      w <- get_world ;;
      ret (maybeSingle (filter (certified userId courseId) (certificates w)))
  end.

Fixpoint lookup (key : string) (l : list (string * string)) : option string :=
  match l with
  | [] => None
  | (k, v) :: rest => if k =? key then Some v else lookup key rest
  end.

(** [course?.title] of [from('courses').select('title').eq('id', id)
    .single()]. *)
Definition select_title (env : Env) (courseId : string)
  : Script (option string) :=
  match outage env SelectTitle with
  | Some e => ret None
  | None =>
      w <- get_world ;;
      match single (filter (fun c => course_id_ c =? courseId)
                           (courses (store w))) with
      | inl _ => ret None
      | inr _ => ret (lookup courseId (titles w))
      end
  end.

(** [profile?.full_name]. *)
Definition select_full_name (env : Env) (userId : string)
  : Script (option string) :=
  match outage env SelectFullName with
  | Some e => ret None
  | None =>
      w <- get_world ;;
      match single (filter (fun p => profile_id p =? userId)
                           (profiles (store w))) with
      | inl _ => ret None
      | inr profile => ret (full_name profile)
      end
  end.

Definition insert_certificate (env : Env) (row : Certificate)
  : Script (PostgrestError + Certificate) :=
  match outage env InsertCertificate with
  | Some e => ret (inl e)
  | None =>
      fun w =>
        (Normal (inr row),
         {| store := store w; titles := titles w;
            certificates := certificates w ++ [row];
            console := console w |})
  end.

(** [supabaseUrl.split('//')[1]?.split('.')[0] ?? '']. *)
Definition projectId_of (supabaseUrl : string) : string :=
  match nth_error (JsUrl.split "//" supabaseUrl) 1 with
  | Some host =>
      match nth_error (JsUrl.split "." host) 0 with
      | Some label => label
      | None => ""
      end
  | None => ""
  end.

Definition verificationUrl_of (supabaseUrl : string) (certNumber : option string)
  : string :=
  "https://" ++ projectId_of supabaseUrl ++ ".lovable.app/certificate/verify/"
    ++ JsUrl.template_null certNumber.

Definition qrCodeUrl_of (verificationUrl : string) : string :=
  "https://api.qrserver.com/v1/create-qr-code/?size=400x400&data="
    ++ JsUrl.encodeURIComponent verificationUrl.

Definition generateCertificate (env : Env) (authorization : option string)
    (json : Exception + SafeParse) : Script unit :=
  try_catch
    (createClient
       (or_empty (Deno_env_get (platform env) "SUPABASE_URL"))
       (or_empty (Deno_env_get (platform env) "SUPABASE_SERVICE_ROLE_KEY")) ;;
     match Js.truthy authorization with
     | None => throw (Error "Missing authorization header")
     | Some authHeader =>
         match auth_getUser (platform env)
                            (Js.replace "Bearer " "" authHeader) with
         | None => throw (Error "Unauthorized")
         | Some user =>
             validationResult <- req_json json ;;
             match validationResult with
             | Invalid first_issue =>
                 let errorMessage :=
                   Js.template (or_else first_issue (Some "Invalid input")) in
                 console_error "Validation error:" ;;
                 respond 400 (ErrorBody (JString errorMessage))
             | Valid courseId =>
                 courseCheck <- select_course env courseId ;;
                 match courseCheck with
                 | inl _ => throw (Error "Course not found")
                 | inr _ =>
                     found <- select_enrollment env (user_id user) courseId ;;
                     match found with
                     | inl _ => throw (Error "Enrollment not found")
                     | inr enrollment =>
                         if (progress enrollment <? 100)%Z
                         then throw (Error "Course not completed yet")
                         else
                           existingCert <-
                             select_certificate env (user_id user) courseId ;;
                           match existingCert with
                           | Some cert =>
                               respond 200
                                 (Existing cert "Certificate already exists")
                           | None =>
                               let certNumber := certificate_number_rpc env in
                               course_title <- select_title env courseId ;;
                               user_name <-
                                 select_full_name env (user_id user) ;;
                               let supabaseUrl :=
                                 or_empty (Deno_env_get (platform env)
                                                        "SUPABASE_URL") in
                               let verificationUrl :=
                                 verificationUrl_of supabaseUrl certNumber in
                               let qrCodeUrl := qrCodeUrl_of verificationUrl in
                               inserted <-
                                 insert_certificate env
                                   {| cert_id := generated_id env;
                                      cert_user_id := user_id user;
                                      cert_course_id := courseId;
                                      certificate_number := certNumber;
                                      qr_code_url := qrCodeUrl |} ;;
                               match inserted with
                               | inl certError =>
                                   console_error "Certificate creation error:" ;;
                                   throw (Error "Failed to create certificate")
                               | inr certificate =>
                                   console_log
                                     "Certificate generated successfully:" ;;
                                   respond 200
                                     (Issued certificate course_title user_name
                                             verificationUrl)
                               end
                           end
                     end
                 end
             end
         end
     end)
    (fun error =>
       console_error "Certificate generation error:" ;;
       let userMessage :=
         match error with
         | Error m => getUserMessage m
         | NotAnError => JString unexpected_error
         end in
       respond 400 (ErrorBody userMessage)).

Definition generate_certificate (env : Env) (method : string)
    (authorization : option string) (json : Exception + SafeParse)
  : Script unit :=
  if method =? "OPTIONS" then respond 200 NoBody
  else generateCertificate env authorization json.

End GenerateCertificate.

(** The messages [GenerateCertificate.getUserMessage] can draw from. *)
Definition certificate_messages : list string :=
  (map snd GenerateCertificate.errorMap ++ [unexpected_error])%list.

Definition certificate_refused (text : string) : GenerateCertificate.Response :=
  {| GenerateCertificate.http_status := 400;
     GenerateCertificate.body :=
       GenerateCertificate.ErrorBody (JString text) |}.

(** The row [generateCertificate] inserts. *)
Definition new_certificate (env : GenerateCertificate.Env) (user : User)
    (courseId : string) : GenerateCertificate.Certificate :=
  {| GenerateCertificate.cert_id := GenerateCertificate.generated_id env;
     GenerateCertificate.cert_user_id := user_id user;
     GenerateCertificate.cert_course_id := courseId;
     GenerateCertificate.certificate_number :=
       GenerateCertificate.certificate_number_rpc env;
     GenerateCertificate.qr_code_url :=
       GenerateCertificate.qrCodeUrl_of
         (GenerateCertificate.verificationUrl_of
            (or_empty (Deno_env_get (GenerateCertificate.platform env)
                                    "SUPABASE_URL"))
            (GenerateCertificate.certificate_number_rpc env)) |}.

(** A certificate scenario: the buyer of the payment scenario, with the
    course completed or not. *)
Definition env_certificates : GenerateCertificate.Env :=
  {| GenerateCertificate.platform := env_ok;
     GenerateCertificate.outage := fun _ => None;
     GenerateCertificate.certificate_number_rpc := Some "CERT-2024-000123";
     GenerateCertificate.generated_id := "c3a0f1de-0000-4000-8000-000000000001" |}.

Definition certificate_world (d : Database) : GenerateCertificate.World :=
  {| GenerateCertificate.store := d;
     GenerateCertificate.titles := [("c-101", "Dasar Pemrograman")];
     GenerateCertificate.certificates := [];
     GenerateCertificate.console := [] |}.

Definition enrollment_at (percent : Z) : Enrollment :=
  {| enr_user_id := user_id siti; enr_course_id := "c-101"; progress := percent |}.

(** What may stand in a query parameter after [encodeURIComponent]. *)
Definition url_safe (c : ascii) : bool :=
  JsUrl.unreserved c || Ascii.eqb c "%".

Definition hex_value (c : ascii) : option N :=
  let n := N_of_ascii c in
  if ((48 <=? n) && (n <=? 57))%N then Some (n - 48)%N
  else if ((65 <=? n) && (n <=? 70))%N then Some (n - 55)%N
  else if ((97 <=? n) && (n <=? 102))%N then Some (n - 87)%N
  else None.

(** The inverse of the percent-encoding, used to state that the
    encoding loses nothing: an escape becomes its byte, everything else
    stays. *)
Fixpoint percent_decode (s : string) : string :=
  match s with
  | EmptyString => ""
  | String c s' =>
      if Ascii.eqb c "%" then
        match s' with
        | String h (String l rest) =>
            match hex_value h, hex_value l with
            | Some a, Some b =>
                String (ascii_of_N (16 * a + b)) (percent_decode rest)
            | _, _ => String c (percent_decode s')
            end
        | _ => String c (percent_decode s')
        end
      else String c (percent_decode s')
  end.

Definition lacks (c : ascii) (s : string) : bool :=
  forallb (fun x => negb (Ascii.eqb x c)) (list_ascii_of_string s).

(** * Properties *)

(** ** The signature check *)

Lemma render_byte (b : Byte.byte) :
  Js.padStart 2 "0" (Js.toString 16 (Byte.to_N b))
  = String (lower_hex_digit (Byte.to_N b / 16))
      (String (lower_hex_digit (Byte.to_N b mod 16)) "").
Proof. destruct b; vm_compute; reflexivity. Qed.

Lemma join_cons (x : string) (xs : list string) :
  Js.join (x :: xs) = x ++ Js.join xs.
Proof.
  unfold Js.join. destruct xs as [|y ys]; simpl.
  - induction x as [|c x IH]; simpl; [reflexivity | now rewrite <- IH].
  - reflexivity.
Qed.

Lemma render_lowercase_hex (bytes : list Byte.byte) :
  Js.join (map (fun b => Js.padStart 2 "0" (Js.toString 16 (Byte.to_N b))) bytes)
  = lowercase_hex bytes.
Proof.
  induction bytes as [|b rest IH].
  - reflexivity.
  - cbn [map]. rewrite join_cons, render_byte, IH. reflexivity.
Qed.

Lemma digest_words_length (msg : list Z) :
  List.length (SHA512.digest_words msg) = 8%nat.
Proof.
  unfold SHA512.digest_words.
  generalize (SHA512.chunks (List.length (SHA512.pad msg)) 128 (SHA512.pad msg)).
  assert (H : List.length SHA512.H0 = 8%nat) by reflexivity.
  revert H. generalize SHA512.H0.
  intros h Hh blocks. revert h Hh.
  induction blocks as [|b blocks IH]; intros h Hh; simpl.
  - exact Hh.
  - apply IH. unfold SHA512.compress.
    rewrite length_map, length_combine, Hh. reflexivity.
Qed.

Lemma lowercase_hex_length (bytes : list Byte.byte) :
  String.length (lowercase_hex bytes) = (2 * List.length bytes)%nat.
Proof. induction bytes as [|b rest IH]; simpl; [reflexivity | lia]. Qed.

Lemma flat_map_length_const {A B} (f : A -> list B) (n : nat) (l : list A) :
  (forall a, List.length (f a) = n) ->
  List.length (flat_map f l) = (List.length l * n)%nat.
Proof.
  intros Hf. induction l as [|a l IH]; simpl; [reflexivity|].
  rewrite length_app, Hf, IH. reflexivity.
Qed.

Lemma be_bytes_length (n : nat) (x : Z) : List.length (SHA512.be_bytes n x) = n.
Proof. induction n as [|n IH]; simpl; [reflexivity | now rewrite IH]. Qed.

(** The digest has 512 bits, so a signature has 128 characters. *)
Lemma sha512_hex_length (s : string) : String.length (sha512_hex s) = 128%nat.
Proof.
  unfold sha512_hex, SHA512.digest.
  rewrite lowercase_hex_length, length_map.
  rewrite (flat_map_length_const _ 8%nat) by (intros; apply be_bytes_length).
  rewrite digest_words_length. reflexivity.
Qed.

Example sha512_hex_abc :
  sha512_hex "abc"
  = "ddaf35a193617abacc417349ae20413112e6fa4e89a97ea20a9eeee64b55d39a2192992a274fc1a836ba3c23a3feebbd454d4423643ce80e2a9ac94fa54ca49f".
Proof. vm_compute. reflexivity. Qed.

Example sha512_hex_empty :
  sha512_hex ""
  = "cf83e1357eefb8bdf1542850d66d8007d620e4050b5715dc83f4a921d36ce9ce47d0d13c5d85f2b0ff8318d2877eec2f63b931bd47417a81a538327af927da3e".
Proof. vm_compute. reflexivity. Qed.

Example sha512_hex_two_blocks :
  sha512_hex "abcdefghbcdefghicdefghijdefghijkefghijklfghijklmghijklmnhijklmnoijklmnopjklmnopqklmnopqrlmnopqrsmnopqrstnopqrstu"
  = "8e959b75dae313da8cf4f72814fc143f8f7779c6eb9f7fa17299aeadb6889018501d289e4900f7e4331b99dec4b5433ac7d329eeb6dd26545e96e55b874be909".
Proof. vm_compute. reflexivity. Qed.

(** The padding boundary: 111 bytes fill one block, 112 need two. *)
Example sha512_hex_111_bytes :
  sha512_hex (string_of_list_ascii (repeat "a"%char 111))
  = "fa9121c7b32b9e01733d034cfc78cbf67f926c7ed83e82200ef86818196921760b4beff48404df811b953828274461673c68d04e297b0eb7b2b4d60fc6b566a2".
Proof. vm_compute. reflexivity. Qed.

Example sha512_hex_112_bytes :
  sha512_hex (string_of_list_ascii (repeat "a"%char 112))
  = "c01d080efd492776a1c43bd23dd99d0a2e626d481e16782e75d54c2503b5dc32bd05f0f1ba33e568b88fd2d970929b719ecbb152f58f130a407c8830604b70ca".
Proof. vm_compute. reflexivity. Qed.

(** The signature the gateway sends for the scenario's notification. *)
Example scenario_signature :
  signature_key (notice (Some "settlement") None)
  = Some "f06e25c701cac74519cf5b70529012eb9cf47dc0240e72169ada4ef29d699c7e2a57f8f357697b28dafb72a90d8b4796098759ebb91a6541e3b3f86e842bb9cc".
Proof. vm_compute. reflexivity. Qed.

Example signature_accepted :
  verifyMidtransSignature (Some "a") (Some "b") (Some "") "c"
    "ddaf35a193617abacc417349ae20413112e6fa4e89a97ea20a9eeee64b55d39a2192992a274fc1a836ba3c23a3feebbd454d4423643ce80e2a9ac94fa54ca49f"
  = true.
Proof. vm_compute. reflexivity. Qed.

Example signature_is_case_sensitive :
  verifyMidtransSignature (Some "a") (Some "b") (Some "") "c"
    "DDAF35A193617ABACC417349AE20413112E6FA4E89A97EA20A9EEEE64B55D39A2192992A274FC1A836BA3C23A3FEEBBD454D4423643CE80E2A9AC94FA54CA49F"
  = false.
Proof. vm_compute. reflexivity. Qed.

(** C4: [verifyMidtransSignature] accepts exactly the lowercase
    hexadecimal SHA-512 digest of the bytes of
    [orderId ++ statusCode ++ grossAmount ++ serverKey], compared with the
    provided signature by string equality. *)
Theorem verifyMidtransSignature_spec
    (orderId statusCode grossAmount serverKey signatureKey : string) :
  verifyMidtransSignature (Some orderId) (Some statusCode) (Some grossAmount)
                          serverKey signatureKey = true
  <-> signatureKey
      = lowercase_hex
          (SHA512.digest
             (Js.TextEncoder_encode
                (orderId ++ statusCode ++ grossAmount ++ serverKey))).
Proof.
  unfold verifyMidtransSignature. cbn [Js.template].
  rewrite render_lowercase_hex, String.eqb_eq.
  split; intros H; symmetry; exact H.
Qed.

(** ** The webhook *)

Ltac run_script :=
  unfold serve, handleNotification, createIntent, try_catch, bind, createClient,
    req_json, ret, throw, respond, console_log, console_error, console_write,
    payments_update_status, enrollments_insert, get_db, put_db,
    courses_select, payments_insert, profiles_select,
    payments_update_transaction, fetch_charge in *;
  cbn beta iota zeta delta [fst snd db console charges http_status body] in *.

(** [createClient] accepts the variables exactly when both are set and
    non-empty. *)
Lemma client_accepted (env : Env) :
  client_configured env = true ->
  client_refused (or_empty (Deno_env_get env "SUPABASE_URL"))
                 (or_empty (Deno_env_get env "SUPABASE_SERVICE_ROLE_KEY"))
  = None.
Proof.
  unfold client_configured, set_and_non_empty, client_refused, or_empty.
  destruct (Deno_env_get env "SUPABASE_URL") as [url|]; [|discriminate].
  destruct (url =? ""); [discriminate|].
  destruct (Deno_env_get env "SUPABASE_SERVICE_ROLE_KEY") as [key|];
    [|discriminate].
  destruct (key =? ""); [discriminate | reflexivity].
Qed.

Lemma client_rejected (env : Env) :
  client_configured env = false ->
  exists text,
    client_refused (or_empty (Deno_env_get env "SUPABASE_URL"))
                   (or_empty (Deno_env_get env "SUPABASE_SERVICE_ROLE_KEY"))
    = Some (Error text).
Proof.
  unfold client_configured, set_and_non_empty, client_refused, or_empty.
  destruct (Deno_env_get env "SUPABASE_URL") as [url|]; cbn; [|eauto].
  destruct (url =? ""); cbn; [eauto|].
  destruct (Deno_env_get env "SUPABASE_SERVICE_ROLE_KEY") as [key|]; cbn;
    [|eauto].
  destruct (key =? ""); cbn; [eauto | discriminate].
Qed.

(** Without the store's variables every delivery ends in the [catch]
    with the client library's error, whatever was delivered. *)
Lemma handleNotification_unconfigured (env : Env) :
  client_configured env = false ->
  exists text,
    forall (json : Exception + option Notification) (w : World),
      serve (handleNotification env json) w
      = (bad_request text,
         {| db := db w;
            console := (console w ++ [(LogError, "Webhook error:")])%list;
            charges := charges w |}).
Proof.
  intros Hc. destruct (client_rejected env Hc) as [text Ht].
  exists text. intros json w. run_script. rewrite Ht. reflexivity.
Qed.

Lemma authenticated_inv (env : Env) (n : Notification) :
  authenticated env n = true ->
  exists serverKey signatureKey,
    Js.truthy (Deno_env_get env "MIDTRANS_SERVER_KEY") = Some serverKey
    /\ Js.truthy (signature_key n) = Some signatureKey
    /\ verifyMidtransSignature (order_id n) (status_code n) (gross_amount n)
         serverKey signatureKey = true.
Proof.
  unfold authenticated.
  destruct (Js.truthy (Deno_env_get env "MIDTRANS_SERVER_KEY")) as [k|];
    [|discriminate].
  destruct (Js.truthy (signature_key n)) as [sg|]; [|discriminate].
  intros H. exists k, sg. auto.
Qed.

(** An authenticated notification whose order id matches exactly one
    intent is accepted and leaves [accepted_world]. *)
Lemma handleNotification_accepted (env : Env) (n : Notification) (w : World)
    (p : Payment) :
  client_configured env = true ->
  authenticated env n = true ->
  outage env UpdatePaymentStatus = None ->
  filter (order_matches (order_id n)) (payments (db w)) = [p] ->
  serve (handleNotification env (inr (Some n))) w
  = (accepted_response env n p w, accepted_world env n p w).
Proof.
  intros Hc Ha Ho Hf.
  destruct (authenticated_inv _ _ Ha) as (k & sg & Hk & Hs & Hv).
  run_script. rewrite (client_accepted env Hc). cbn.
  rewrite Hk. cbn. rewrite Hs, Hv, Ho. cbn. rewrite Hf. cbn.
  unfold accepted_response, accepted_world, status_written, enrollment_for.
  destruct (paymentStatus_of (transaction_status n) (fraud_status n)); cbn;
    try reflexivity.
  match goal with |- context [insert_failure ?e ?r ?d] =>
    destruct (insert_failure e r d) as [err|] end; cbn; [|reflexivity].
  destruct (message err) as [text|]; cbn; [|reflexivity].
  destruct (Js.includes "duplicate" text); reflexivity.
Qed.

(** The answer is success when the store's insert errors carry a
    message. *)
Lemma accepted_response_readable (env : Env) (n : Notification) (p : Payment)
    (w : World) :
  insert_error_readable env = true ->
  accepted_response env n p w = webhook_ok.
Proof.
  unfold accepted_response, insert_failure, insert_error_readable.
  intros Hr.
  destruct (paymentStatus_of (transaction_status n) (fraud_status n));
    try reflexivity.
  destruct (outage env InsertEnrollment) as [e|].
  - destruct (message e); [reflexivity | discriminate].
  - destruct (existsb _ _); reflexivity.
Qed.


(** An authenticated notification whose order id matches no intent, or
    several, or that meets a store outage, is answered 400 and changes
    nothing in the store. *)
Lemma handleNotification_update_failed (env : Env) (n : Notification)
    (w : World) :
  client_configured env = true ->
  authenticated env n = true ->
  (outage env UpdatePaymentStatus <> None
   \/ forall p, filter (order_matches (order_id n)) (payments (db w)) <> [p]) ->
  fst (serve (handleNotification env (inr (Some n))) w)
  = bad_request "Failed to update payment"
  /\ db (snd (serve (handleNotification env (inr (Some n))) w)) = db w.
Proof.
  intros Hc Ha Hfail.
  destruct (authenticated_inv _ _ Ha) as (k & sg & Hk & Hs & Hv).
  run_script. rewrite (client_accepted env Hc). cbn.
  rewrite Hk. cbn. rewrite Hs, Hv. cbn.
  destruct (outage env UpdatePaymentStatus) as [e|]; cbn; [auto|].
  destruct Hfail as [Hfail | Hfail]; [congruence|].
  destruct (filter (order_matches (order_id n)) (payments (db w)))
    as [|p [|q rest]]; cbn; auto.
  exfalso. apply (Hfail p). reflexivity.
Qed.

(** A notification that is not authenticated never reaches the store. *)
Lemma handleNotification_rejected (env : Env) (n : Notification) (w : World) :
  client_configured env = true ->
  authenticated env n = false ->
  db (snd (serve (handleNotification env (inr (Some n))) w)) = db w
  /\ fst (serve (handleNotification env (inr (Some n))) w)
     = match Js.truthy (Deno_env_get env "MIDTRANS_SERVER_KEY") with
       | None => server_configuration_error
       | Some _ =>
           match Js.truthy (signature_key n) with
           | None => invalid_request
           | Some _ => {| http_status := 401;
                          body := ErrorBody (JString "Invalid signature") |}
           end
       end.
Proof.
  unfold authenticated. intros Hc Ha. run_script.
  rewrite (client_accepted env Hc). cbn.
  destruct (Js.truthy (Deno_env_get env "MIDTRANS_SERVER_KEY")) as [k|];
    cbn; [|auto].
  destruct (Js.truthy (signature_key n)) as [sg|]; cbn; [|auto].
  rewrite Ha. cbn. auto.
Qed.

(** A body that cannot be read is answered 400 with the text of the
    exception, before the secret or the signature are looked at, and
    the store is not touched. *)
Lemma malformed_body_rejected (env : Env) (e : Exception) (w : World) :
  client_configured env = true ->
  fst (serve (handleNotification env (inl e)) w)
  = bad_request match e with
                | Error m => m
                | NotAnError => "Unknown error occurred"
                end
  /\ db (snd (serve (handleNotification env (inl e)) w)) = db w
  /\ console (snd (serve (handleNotification env (inl e)) w))
     = (console w ++ [(LogError, "Webhook error:")])%list.
Proof.
  intros Hc. run_script. rewrite (client_accepted env Hc). repeat split.
Qed.

(** The body [null] passes the secret check and then makes the
    destructuring of line 51 throw. *)
Lemma null_body_rejected (env : Env) (w : World) :
  client_configured env = true ->
  db (snd (serve (handleNotification env (inr None)) w)) = db w
  /\ fst (serve (handleNotification env (inr None)) w)
     = match Js.truthy (Deno_env_get env "MIDTRANS_SERVER_KEY") with
       | None => server_configuration_error
       | Some _ => bad_request destructure_null
       end.
Proof.
  intros Hc. run_script. rewrite (client_accepted env Hc). cbn.
  destruct (Js.truthy (Deno_env_get env "MIDTRANS_SERVER_KEY")); cbn; auto.
Qed.

Example scenario_settlement :
  serve (handleNotification env_ok (inr (Some (notice (Some "settlement") None))))
        (world_of [intent pending] [])
  = (webhook_ok,
     {| db := {| courses := [course_101];
                 profiles := [ {| profile_id := user_id siti;
                                  full_name := Some "Siti" |} ];
                 payments := [intent settlement];
                 enrollments := [enrollment_for (intent pending)] |};
        console := [(LogInfo, "Received Midtrans notification:")];
        charges := [] |}).
Proof. vm_compute. reflexivity. Qed.

(** *** Lists of rows *)

Section Rows.
Context {A : Type} (hit : A -> bool) (change : A -> A).

Hypothesis hit_change : forall a, hit (change a) = hit a.

Lemma filter_update_where (l : list A) :
  filter hit (update_where hit change l) = map change (filter hit l).
Proof.
  induction l as [|a l IH]; cbn; [reflexivity|].
  destruct (hit a) eqn:Ha; cbn.
  - rewrite hit_change, Ha. cbn. now rewrite <- IH.
  - rewrite Ha. exact IH.
Qed.


End Rows.



Lemma order_matches_set_status (o : option string) (st : PaymentStatus)
    (p : Payment) :
  order_matches o (set_status st p) = order_matches o p.
Proof. reflexivity. Qed.

(** *** What an accepted notification leaves in the store *)

Lemma accepted_payments (env : Env) (n : Notification) (p : Payment) (w : World) :
  payments (db (accepted_world env n p w))
  = update_where (order_matches (order_id n))
      (set_status (paymentStatus_of (transaction_status n) (fraud_status n)))
      (payments (db w)).
Proof.
  unfold accepted_world, status_written.
  destruct (paymentStatus_of (transaction_status n) (fraud_status n));
    try reflexivity.
  match goal with |- context [insert_failure ?e ?r ?d] =>
    destruct (insert_failure e r d) end; reflexivity.
Qed.

Lemma insert_failure_enrollments (env : Env) (row : Enrollment)
    (d d' : Database) :
  enrollments d = enrollments d' ->
  insert_failure env row d = insert_failure env row d'.
Proof. unfold insert_failure. intros ->. reflexivity. Qed.

Lemma accepted_enrollments (env : Env) (n : Notification) (p : Payment)
    (w : World) :
  enrollments (db (accepted_world env n p w))
  = match paymentStatus_of (transaction_status n) (fraud_status n) with
    | settlement =>
        match insert_failure env (enrollment_for p) (db w) with
        | Some _ => enrollments (db w)
        | None => (enrollments (db w) ++ [enrollment_for p])%list
        end
    | _ => enrollments (db w)
    end.
Proof.
  unfold accepted_world.
  destruct (paymentStatus_of (transaction_status n) (fraud_status n));
    try reflexivity.
  match goal with |- context [insert_failure ?e ?r ?d] =>
    rewrite (insert_failure_enrollments e r d (db w)) by reflexivity end.
  change (enrollment_for (set_status settlement p)) with (enrollment_for p).
  destruct (insert_failure env (enrollment_for p) (db w)); reflexivity.
Qed.


(** The answer depends on the enrollments only. *)
Lemma accepted_response_enrollments (env : Env) (n : Notification)
    (p : Payment) (w : World) :
  accepted_response env n p w
  = match paymentStatus_of (transaction_status n) (fraud_status n) with
    | settlement =>
        match insert_failure env (enrollment_for p) (db w) with
        | Some e =>
            match message e with
            | Some _ => webhook_ok
            | None => bad_request includes_of_undefined
            end
        | None => webhook_ok
        end
    | _ => webhook_ok
    end.
Proof.
  unfold accepted_response.
  destruct (paymentStatus_of (transaction_status n) (fraud_status n));
    reflexivity.
Qed.

(** *** Terminal statuses (C1) *)




(** *** Invalid signatures (C2) *)

Lemma verifyMidtransSignature_iff (orderId statusCode grossAmount : option string)
    (serverKey signatureKey : string) :
  verifyMidtransSignature orderId statusCode grossAmount serverKey signatureKey
  = true
  <-> signatureKey
      = sha512_hex (Js.template orderId ++ Js.template statusCode
                      ++ Js.template grossAmount ++ serverKey).
Proof.
  unfold verifyMidtransSignature, sha512_hex.
  rewrite render_lowercase_hex, String.eqb_eq.
  split; intros H; symmetry; exact H.
Qed.





(** *** Repeated delivery (C3) *)


Lemma enrolled_own_row (p : Payment) :
  enrolled (pay_user_id p) (pay_course_id p) (enrollment_for p) = true.
Proof. unfold enrolled. cbn. now rewrite !String.eqb_refl. Qed.



(** When the buyer is already enrolled, the delivery is still answered
    with success and the enrollments are left as they are. *)
Lemma settlement_when_enrolled (env : Env) (n : Notification) (w : World)
    (p : Payment) :
  client_configured env = true ->
  authenticated env n = true ->
  outage env UpdatePaymentStatus = None ->
  insert_error_readable env = true ->
  filter (order_matches (order_id n)) (payments (db w)) = [p] ->
  existsb (enrolled (pay_user_id p) (pay_course_id p)) (enrollments (db w))
  = true ->
  fst (serve (handleNotification env (inr (Some n))) w) = webhook_ok
  /\ enrollments (db (snd (serve (handleNotification env (inr (Some n))) w)))
     = enrollments (db w).
Proof.
  intros Hc Ha Ho Hr Hf Hin.
  rewrite (handleNotification_accepted env n w p Hc Ha Ho Hf). cbn [fst snd].
  split; [now apply accepted_response_readable|].
  rewrite accepted_enrollments. unfold insert_failure.
  destruct (paymentStatus_of _ _); try reflexivity.
  destruct (outage env InsertEnrollment); [reflexivity|].
  cbn. now rewrite Hin.
Qed.

(** *** Order of the checks (C7) *)


(** Every delivery either leaves store and gateway log as they were and
    is not answered 200, or is accepted. *)
Lemma handleNotification_cases (env : Env)
    (json : Exception + option Notification) (w : World) :
  (db (snd (serve (handleNotification env json) w)) = db w
   /\ http_status (fst (serve (handleNotification env json) w)) <> 200
   /\ (http_status (fst (serve (handleNotification env json) w)) = 500 ->
       client_configured env = true
       /\ Js.truthy (Deno_env_get env "MIDTRANS_SERVER_KEY") = None
       /\ exists parsed, json = inr parsed))
  \/ exists n p,
       json = inr (Some n)
       /\ client_configured env = true
       /\ authenticated env n = true
       /\ outage env UpdatePaymentStatus = None
       /\ filter (order_matches (order_id n)) (payments (db w)) = [p]
       /\ serve (handleNotification env json) w
          = (accepted_response env n p w, accepted_world env n p w).
Proof.
  destruct (client_configured env) eqn:Hc.
  2:{ left. destruct (handleNotification_unconfigured env Hc) as [text Ht].
      rewrite Ht. cbn. repeat split; discriminate. }
  destruct json as [e|[n|]].
  - left. destruct (malformed_body_rejected env e w Hc) as (-> & -> & _).
    repeat split; discriminate.
  - destruct (authenticated env n) eqn:Ha.
    + assert (Hfailed :
        outage env UpdatePaymentStatus <> None
        \/ (forall p, filter (order_matches (order_id n)) (payments (db w))
                      <> [p]) ->
        db (snd (serve (handleNotification env (inr (Some n))) w)) = db w
        /\ http_status (fst (serve (handleNotification env (inr (Some n))) w))
           <> 200
        /\ (http_status (fst (serve (handleNotification env (inr (Some n))) w))
            = 500 ->
            true = true
            /\ Js.truthy (Deno_env_get env "MIDTRANS_SERVER_KEY") = None
            /\ exists parsed, @inr Exception _ (Some n) = inr parsed)).
      { intros Hfail.
        destruct (handleNotification_update_failed env n w Hc Ha Hfail)
          as [-> ->].
        repeat split; discriminate. }
      destruct (outage env UpdatePaymentStatus) as [err|] eqn:Ho;
        [left; apply Hfailed; left; discriminate|].
      destruct (filter (order_matches (order_id n)) (payments (db w)))
        as [|p [|q rest]] eqn:Hf.
      * left. apply Hfailed. right. discriminate.
      * right. exists n, p. repeat split; try assumption.
        apply handleNotification_accepted; assumption.
      * left. apply Hfailed. right. discriminate.
    + left. destruct (handleNotification_rejected env n w Hc Ha) as [-> ->].
      split; [reflexivity|].
      destruct (Js.truthy (Deno_env_get env "MIDTRANS_SERVER_KEY"));
        [destruct (Js.truthy (signature_key n))|];
        (split; [discriminate|]); try discriminate.
      intros _. eauto.
  - left. destruct (null_body_rejected env w Hc) as [-> ->].
    split; [reflexivity|].
    destruct (Js.truthy (Deno_env_get env "MIDTRANS_SERVER_KEY"));
      (split; [discriminate|]); try discriminate.
    intros _. eauto.
Qed.



(** *** Unknown orders (C8) *)



(** *** The notification's amount (C9) *)

Lemma filter_map_commute {A} (f : A -> bool) (g : A -> A) (l : list A) :
  (forall a, f (g a) = f a) ->
  filter f (map g l) = map g (filter f l).
Proof.
  intros Hfg. induction l as [|a l IH]; cbn; [reflexivity|].
  rewrite Hfg. destruct (f a); cbn; now rewrite IH.
Qed.

Lemma accepted_world_repriced (env : Env) (n : Notification) (p : Payment)
    (w : World) (a : float) :
  db (accepted_world env n (set_amount a p) (repriced_world a w))
  = repriced a (db (accepted_world env n p w)).
Proof.
  unfold accepted_world, status_written, repriced_world, repriced,
    set_payments, update_where.
  cbn [db payments courses profiles enrollments console charges].
  assert (Hmap :
    forall st ps,
      map (fun q => if order_matches (order_id n) q then set_status st q else q)
          (map (set_amount a) ps)
      = map (set_amount a)
          (map (fun q => if order_matches (order_id n) q
                         then set_status st q else q) ps)).
  { intros st ps. rewrite !map_map. apply map_ext. intros q.
    change (order_matches (order_id n) (set_amount a q))
      with (order_matches (order_id n) q).
    destruct (order_matches (order_id n) q); reflexivity. }
  destruct (paymentStatus_of (transaction_status n) (fraud_status n));
    cbn; try (now rewrite Hmap).
  unfold insert_failure, enrollment_for, set_enrollments; cbn.
  destruct (outage env InsertEnrollment); cbn; [now rewrite Hmap|].
  destruct (existsb _ (enrollments (db w))); cbn; now rewrite Hmap.
Qed.

(** C9: two authenticated notifications that agree on [order_id],
    [transaction_status] and [fraud_status] (and so may differ in
    [gross_amount] and in the signature that covers it) have the same
    outcome on the same store: same response, same resulting world.  The
    stored amount is not consulted: replacing every stored amount by
    another value changes neither the response nor anything but the
    amounts in the resulting store. *)
Theorem gross_amount_only_signed (env : Env) (n1 n2 : Notification) (w : World)
    (a : float) :
  order_id n1 = order_id n2 ->
  transaction_status n1 = transaction_status n2 ->
  fraud_status n1 = fraud_status n2 ->
  authenticated env n1 = true ->
  authenticated env n2 = true ->
  serve (handleNotification env (inr (Some n1))) w
  = serve (handleNotification env (inr (Some n2))) w
  /\ fst (serve (handleNotification env (inr (Some n1))) (repriced_world a w))
     = fst (serve (handleNotification env (inr (Some n1))) w)
  /\ db (snd (serve (handleNotification env (inr (Some n1))) (repriced_world a w)))
     = repriced a (db (snd (serve (handleNotification env (inr (Some n1))) w))).
Proof.
  intros Hoid Hts Hfs Ha1 Ha2.
  destruct (client_configured env) eqn:Hc.
  2:{ destruct (handleNotification_unconfigured env Hc) as [text Ht].
      rewrite !Ht. repeat split. }
  assert (Hcases :
    (exists p, outage env UpdatePaymentStatus = None
               /\ filter (order_matches (order_id n1)) (payments (db w)) = [p])
    \/ (outage env UpdatePaymentStatus <> None
        \/ forall p, filter (order_matches (order_id n1)) (payments (db w))
                     <> [p])).
  { destruct (outage env UpdatePaymentStatus); [right; left; discriminate|].
    destruct (filter (order_matches (order_id n1)) (payments (db w)))
      as [|p [|q rest]]; [right; right; discriminate | left; eauto
                         | right; right; discriminate]. }
  assert (Hrep : forall o,
    filter (order_matches o) (payments (db (repriced_world a w)))
    = map (set_amount a) (filter (order_matches o) (payments (db w)))).
  { intros o. cbn. apply filter_map_commute. reflexivity. }
  destruct Hcases as [(p & Ho & Hf) | Hfail].
  - rewrite (handleNotification_accepted env n1 w p Hc Ha1 Ho Hf).
    rewrite (handleNotification_accepted env n2 w p Hc Ha2 Ho)
      by (now rewrite <- Hoid).
    rewrite (handleNotification_accepted env n1 (repriced_world a w)
               (set_amount a p) Hc Ha1 Ho)
      by (now rewrite Hrep, Hf).
    cbn [fst snd]. split; [|split; [|apply accepted_world_repriced]].
    + unfold accepted_response, accepted_world, status_written.
      now rewrite Hoid, Hts, Hfs.
    + rewrite !accepted_response_enrollments. reflexivity.
  - split.
    + destruct (authenticated_inv _ _ Ha1) as (k & s1 & Hk & Hs1 & Hv1).
      destruct (authenticated_inv _ _ Ha2) as (k2 & s2 & Hk2 & Hs2 & Hv2).
      rewrite Hk in Hk2. injection Hk2 as <-.
      run_script. rewrite (client_accepted env Hc). cbn.
      rewrite Hk. cbn. rewrite Hs1, Hs2, Hv1, Hv2. cbn.
      rewrite <- Hoid, <- Hts, <- Hfs. reflexivity.
    + destruct (handleNotification_update_failed env n1 w Hc Ha1 Hfail)
        as [-> ->].
      destruct (handleNotification_update_failed env n1 (repriced_world a w)
                  Hc Ha1)
        as [-> ->]; [|split; reflexivity].
      destruct Hfail as [Hfail | Hfail]; [left; exact Hfail | right].
      intros q. rewrite Hrep.
      destruct (filter (order_matches (order_id n1)) (payments (db w)))
        as [|p [|p' rest]]; cbn; try discriminate.
      exfalso. apply (Hfail p). reflexivity.
Qed.

Lemma gross_amount_only_signed_witness :
  signature_key (notice_with_amount "100000.00")
  <> signature_key (notice_with_amount "1.00")
  /\ serve (handleNotification env_ok (inr (Some (notice_with_amount "100000.00"))))
           (world_of [intent pending] [])
     = serve (handleNotification env_ok (inr (Some (notice_with_amount "1.00"))))
             (world_of [intent pending] []).
Proof.
  split.
  - vm_compute. discriminate.
  - refine (proj1 (gross_amount_only_signed env_ok
                     (notice_with_amount "100000.00") (notice_with_amount "1.00")
                     (world_of [intent pending] []) 1%float _ _ _ _ _));
      vm_compute; reflexivity.
Defined.

(** *** Failed enrollment inserts (C10) *)




(** An insert error without a message makes the test of line 116 throw:
    the delivery is answered 400 with the text of the [TypeError], after
    the status was written. *)
Lemma enrollment_failure_unreadable (env : Env) (n : Notification) (w : World)
    (p : Payment) (e : PostgrestError) :
  client_configured env = true ->
  authenticated env n = true ->
  paymentStatus_of (transaction_status n) (fraud_status n) = settlement ->
  outage env UpdatePaymentStatus = None ->
  filter (order_matches (order_id n)) (payments (db w)) = [p] ->
  insert_failure env (enrollment_for p) (db w) = Some e ->
  message e = None ->
  fst (serve (handleNotification env (inr (Some n))) w)
  = bad_request includes_of_undefined
  /\ filter (order_matches (order_id n))
            (payments (db (snd (serve (handleNotification env (inr (Some n)))
                                      w))))
     = [set_status settlement p]
  /\ enrollments (db (snd (serve (handleNotification env (inr (Some n))) w)))
     = enrollments (db w).
Proof.
  intros Hc Ha Hst Ho Hf He Hm.
  rewrite (handleNotification_accepted env n w p Hc Ha Ho Hf). cbn [fst snd].
  rewrite accepted_response_enrollments, accepted_enrollments, accepted_payments.
  rewrite Hst, He, Hm. repeat split.
  rewrite filter_update_where by reflexivity. now rewrite Hf.
Qed.

Example scenario_unreadable_insert_error :
  serve (handleNotification env_enrollments_unreadable
           (inr (Some (notice (Some "settlement") None))))
        (world_of [intent pending] [])
  = (bad_request "Cannot read properties of undefined (reading 'includes')",
     {| db := db (world_of [intent settlement] []);
        console := [(LogInfo, "Received Midtrans notification:");
                    (LogError, "Webhook error:")];
        charges := [] |}).
Proof. vm_compute. reflexivity. Qed.

(** ** Payment creation *)

Example scenario_create_intent :
  serve (createIntent env_ok (Some "Bearer jwt-siti")
           (inr (Valid "c-101" 100000%float)))
        (world_of [] [])
  = ({| http_status := 200;
        body := PaymentBody
                  (Some "https://api.sandbox.midtrans.com/v2/gopay/tx-0001/qr-code")
                  "ORDER-1700000000000-3f2a9c1e" (Some "tx-0001") |},
     {| db := db (world_of [intent pending] []);
        console := [];
        charges := [ {| charge_url := "https://api.sandbox.midtrans.com/v2/charge";
                        charge_order_id := "ORDER-1700000000000-3f2a9c1e";
                        charge_gross_amount := 100000%float;
                        charge_first_name := "Siti";
                        charge_email := Some "siti@example.com" |} ] |}).
Proof. vm_compute. reflexivity. Qed.



(** *** Error messages (C6) *)

Lemma getUserMessage_cases (m : string) :
  (exists s, getUserMessage m = JString s /\ In s user_messages)
  \/ (getUserMessage m = JInherited m /\ In m Object_prototype).
Proof.
  unfold getUserMessage, property. cbn [own_property errorMap].
  repeat match goal with
         | |- context [if ?k =? m then _ else _] =>
             destruct (k =? m);
             [left; eexists; split; [reflexivity | cbn; tauto] |]
         end.
  destruct (existsb (String.eqb m) Object_prototype) eqn:E.
  - right. split; [reflexivity|].
    apply existsb_exists in E. destruct E as (x & Hx & Hmx).
    apply String.eqb_eq in Hmx. now subst x.
  - left. eexists. split; [reflexivity | cbn; tauto].
Qed.

(** C6: the webhook has no mapping of error texts.  A request whose body
    cannot be read makes [req.json()] throw, and the [catch] of the
    webhook answers with the message of the exception as it is: for an
    exception text that is not one of the user-facing messages, the
    error string of the answer is not drawn from the mapping, while
    payment creation and certificate generation pass the exception
    through [getUserMessage]. *)
Theorem webhook_echoes_error_text (env : Env) (w : World) (text : string) :
  client_configured env = true ->
  ~ In text user_messages ->
  fst (serve (handleNotification env (inl (Error text))) w) = bad_request text
  /\ forall s, In s user_messages ->
               body (fst (serve (handleNotification env (inl (Error text))) w))
               <> ErrorBody (JString s).
Proof.
  intros Hc Hout.
  destruct (malformed_body_rejected env (Error text) w Hc) as [-> _].
  split; [reflexivity|].
  intros s Hin Heq. injection Heq as <-. exact (Hout Hin).
Qed.

(** A webhook request with an empty body. *)
Lemma webhook_echoes_error_text_witness :
  fst (serve (handleNotification env_ok
                (inl (Error "Unexpected end of JSON input")))
             (world_of [intent pending] []))
  = bad_request "Unexpected end of JSON input".
Proof.
  refine (proj1 (webhook_echoes_error_text env_ok (world_of [intent pending] [])
                   "Unexpected end of JSON input" _ _)).
  - reflexivity.
  - cbn. intros H.
    repeat (destruct H as [H|H]; [discriminate H|]). exact H.
Defined.

(** The same request to payment creation is answered with the generic
    message. *)
Example createIntent_hides_error_text :
  fst (serve (createIntent env_ok (Some "Bearer jwt-siti")
                (inl (Error "Unexpected end of JSON input")))
             (world_of [] []))
  = bad_request unexpected_error.
Proof. vm_compute. reflexivity. Qed.

(** The webhook's own internal texts reach the client the same way: the
    error of a failed update, and the client library's complaint about
    a missing variable. *)
Example webhook_echoes_internal_text :
  fst (serve (handleNotification env_ok
                (inr (Some (gateway_sign server_secret
                              (unsigned "ORDER-1699999999999-deadbeef"
                                        "100000.00" (Some "settlement") None)))))
             (world_of [intent pending] []))
  = bad_request "Failed to update payment"
  /\ fst (serve (handleNotification env_no_client
                   (inr (Some (notice (Some "settlement") None))))
                (world_of [intent pending] []))
     = bad_request "supabaseUrl is required.".
Proof. vm_compute. split; reflexivity. Qed.

(** * Further properties of the webhook *)

Lemma lower_hex_digits_of_byte (b : Byte.byte) :
  is_lower_hex (lower_hex_digit (Byte.to_N b / 16)) = true
  /\ is_lower_hex (lower_hex_digit (Byte.to_N b mod 16)) = true.
Proof. destruct b; vm_compute; split; reflexivity. Qed.

Lemma lowercase_hex_alphabet (bytes : list Byte.byte) :
  forallb is_lower_hex (list_ascii_of_string (lowercase_hex bytes)) = true.
Proof.
  induction bytes as [|b rest IH]; [reflexivity|].
  cbn [lowercase_hex list_ascii_of_string forallb].
  destruct (lower_hex_digits_of_byte b) as [-> ->]. exact IH.
Qed.

(** X1: a signature that [verifyMidtransSignature] accepts has exactly
    128 characters, all of them lowercase hexadecimal digits; any other
    string (an uppercase rendering, a truncated digest) is rejected. *)
Theorem accepted_signature_shape
    (orderId statusCode grossAmount : option string)
    (serverKey signatureKey : string) :
  verifyMidtransSignature orderId statusCode grossAmount serverKey signatureKey
  = true ->
  String.length signatureKey = 128%nat
  /\ forallb is_lower_hex (list_ascii_of_string signatureKey) = true.
Proof.
  intros H. apply verifyMidtransSignature_iff in H. subst signatureKey.
  split; [apply sha512_hex_length | apply lowercase_hex_alphabet].
Qed.

Lemma accepted_signature_shape_witness :
  String.length
    "ddaf35a193617abacc417349ae20413112e6fa4e89a97ea20a9eeee64b55d39a2192992a274fc1a836ba3c23a3feebbd454d4423643ce80e2a9ac94fa54ca49f"
  = 128%nat
  /\ forallb is_lower_hex
       (list_ascii_of_string
          "ddaf35a193617abacc417349ae20413112e6fa4e89a97ea20a9eeee64b55d39a2192992a274fc1a836ba3c23a3feebbd454d4423643ce80e2a9ac94fa54ca49f")
     = true.
Proof.
  apply (accepted_signature_shape (Some "a") (Some "b") (Some "") "c").
  vm_compute. reflexivity.
Defined.

Lemma string_app_assoc (a b c : string) : (a ++ b) ++ c = a ++ b ++ c.
Proof. induction a as [|x a IH]; cbn; [reflexivity | now rewrite IH]. Qed.

(** X2: the signature covers the concatenation of the three fields, not
    the fields: a notification that moves characters from one field to
    the next one and keeps the signature is authenticated exactly when
    the original is. *)
Theorem signature_covers_concatenation_only (env : Env) (n n' : Notification) :
  Js.template (order_id n') ++ Js.template (status_code n')
    ++ Js.template (gross_amount n')
  = Js.template (order_id n) ++ Js.template (status_code n)
      ++ Js.template (gross_amount n) ->
  signature_key n' = signature_key n ->
  authenticated env n' = authenticated env n.
Proof.
  intros Hcat Hsig. unfold authenticated. rewrite Hsig.
  destruct (Js.truthy (Deno_env_get env "MIDTRANS_SERVER_KEY")) as [k|];
    [|reflexivity].
  destruct (Js.truthy (signature_key n)) as [sg|]; [|reflexivity].
  unfold verifyMidtransSignature.
  assert (Hk : Js.template (order_id n') ++ Js.template (status_code n')
                 ++ Js.template (gross_amount n') ++ k
               = Js.template (order_id n) ++ Js.template (status_code n)
                   ++ Js.template (gross_amount n) ++ k).
  { rewrite <- !string_app_assoc.
    rewrite (string_app_assoc (Js.template (order_id n'))).
    rewrite (string_app_assoc (Js.template (order_id n))).
    now rewrite Hcat. }
  now rewrite Hk.
Qed.

Lemma signature_covers_concatenation_only_witness :
  order_id (shifted_notice) <> order_id (notice (Some "settlement") None)
  /\ authenticated env_ok shifted_notice = true.
Proof.
  split; [vm_compute; discriminate|].
  rewrite (signature_covers_concatenation_only env_ok
             (notice (Some "settlement") None) shifted_notice);
    vm_compute; reflexivity.
Defined.

(** *** The status mapping *)

Lemma strict_eq_spec (x : option string) (lit : string) :
  Bool.reflect (x = Some lit) (strict_eq x lit).
Proof.
  destruct x as [s|]; cbn.
  - destruct (String.eqb_spec s lit); constructor; congruence.
  - constructor. discriminate.
Qed.

(** X3: the stored status a notification maps to is [settlement] exactly
    for [transaction_status] "settlement", or "capture" with
    [fraud_status] "accept"; it is [failed] exactly for "cancel", "deny"
    and "expire"; every other notification (a capture not accepted, an
    unknown or absent status) maps to [pending]. *)
Theorem paymentStatus_of_table (transactionStatus fraudStatus : option string) :
  (paymentStatus_of transactionStatus fraudStatus = settlement
   <-> transactionStatus = Some "settlement"
       \/ (transactionStatus = Some "capture" /\ fraudStatus = Some "accept"))
  /\ (paymentStatus_of transactionStatus fraudStatus = failed
      <-> transactionStatus = Some "cancel" \/ transactionStatus = Some "deny"
          \/ transactionStatus = Some "expire").
Proof.
  unfold paymentStatus_of. cbn [existsb].
  destruct (strict_eq_spec transactionStatus "capture") as [-> | Hcap].
  - destruct (strict_eq_spec fraudStatus "accept") as [-> | Hacc]; cbn;
      (split; split; intros H;
       [ first [ discriminate H | tauto ]
       | first [ reflexivity
               | destruct H as [H | [_ H]]; congruence ]
       | discriminate H
       | destruct H as [H | [H | H]]; discriminate H ]).
  - destruct (strict_eq_spec transactionStatus "settlement") as [-> | Hset].
    + split; split; intros H; try tauto; try discriminate H.
      destruct H as [H | [H | H]]; discriminate H.
    + destruct (strict_eq_spec transactionStatus "cancel") as [-> | Hcan];
        [cbn; split; split; intros H; try tauto; try discriminate H;
         destruct H as [H | [H _]]; discriminate H|].
      destruct (strict_eq_spec transactionStatus "deny") as [-> | Hden];
        [cbn; split; split; intros H; try tauto; try discriminate H;
         destruct H as [H | [H _]]; discriminate H|].
      destruct (strict_eq_spec transactionStatus "expire") as [-> | Hexp];
        [cbn; split; split; intros H; try tauto; try discriminate H;
         destruct H as [H | [H _]]; discriminate H|].
      cbn. split; split; intros H; try discriminate H.
      * destruct H as [H | [H _]]; congruence.
      * destruct H as [H | [H | H]]; congruence.
Qed.

(** *** Outcomes of a delivery *)




(** *** What the webhook writes *)

Lemma accepted_frame (env : Env) (n : Notification) (p : Payment) (w : World) :
  courses (db (accepted_world env n p w)) = courses (db w)
  /\ profiles (db (accepted_world env n p w)) = profiles (db w)
  /\ charges (accepted_world env n p w) = charges w.
Proof.
  unfold accepted_world, status_written.
  destruct (paymentStatus_of (transaction_status n) (fraud_status n));
    try (repeat split; reflexivity).
  match goal with |- context [insert_failure ?e ?r ?d] =>
    destruct (insert_failure e r d) end; repeat split; reflexivity.
Qed.

Lemma charges_untouched (env : Env) (json : Exception + option Notification)
    (w : World) :
  charges (snd (serve (handleNotification env json) w)) = charges w.
Proof.
  destruct (handleNotification_cases env json w)
    as [_ | (n & p & -> & Hc & Ha & Ho & Hf & ->)];
    [|cbn [snd]; apply accepted_frame].
  run_script.
  destruct (client_refused _ _); cbn; [reflexivity|].
  destruct json as [e|[n|]]; cbn; [reflexivity| |].
  - destruct (Js.truthy (Deno_env_get env "MIDTRANS_SERVER_KEY")); cbn;
      [|reflexivity].
    destruct (Js.truthy (signature_key n)); cbn; [|reflexivity].
    destruct (verifyMidtransSignature _ _ _ _ _); cbn; [|reflexivity].
    destruct (outage env UpdatePaymentStatus); cbn; [reflexivity|].
    destruct (single _); cbn; [reflexivity|].
    destruct (PaymentStatus_eqb _ _); cbn; [|reflexivity].
    destruct (insert_failure _ _ _) as [err|]; cbn; [|reflexivity].
    destruct (message err); cbn; [|reflexivity].
    destruct (negb _); reflexivity.
  - destruct (Js.truthy (Deno_env_get env "MIDTRANS_SERVER_KEY")); cbn;
      reflexivity.
Qed.

Lemma map_update_where_erased {A B} (hit : A -> bool) (change : A -> A)
    (erase : A -> B) (l : list A) :
  (forall a, erase (change a) = erase a) ->
  map erase (update_where hit change l) = map erase l.
Proof.
  intros He. unfold update_where. rewrite map_map. apply map_ext.
  intros a. destruct (hit a); [apply He | reflexivity].
Qed.

(** X6: whatever is delivered, the webhook leaves courses, profiles and
    the gateway log as they were, and in the payments table it changes
    nothing but statuses: no row is added or removed, and owner, course,
    amount, order id and transaction fields of every row stay. *)
Theorem webhook_frame (env : Env) (json : Exception + option Notification) (w : World) :
  courses (db (snd (serve (handleNotification env json) w))) = courses (db w)
  /\ profiles (db (snd (serve (handleNotification env json) w)))
     = profiles (db w)
  /\ charges (snd (serve (handleNotification env json) w)) = charges w
  /\ map (set_status pending)
         (payments (db (snd (serve (handleNotification env json) w))))
     = map (set_status pending) (payments (db w)).
Proof.
  split; [|split; [|split; [apply charges_untouched|]]];
    (destruct (handleNotification_cases env json w)
       as [[-> _] | (n & p & -> & Hc & Ha & Ho & Hf & ->)]; [reflexivity|]);
    cbn [snd].
  - apply accepted_frame.
  - apply accepted_frame.
  - rewrite accepted_payments. apply map_update_where_erased. reflexivity.
Qed.

(** X7: the enrollments table never loses or changes a row; a delivery
    adds at most one row, and only when the notification maps to
    [settlement], its order id matches exactly one intent and that
    intent's buyer is not enrolled yet: the new row is for the intent's
    user and course, with progress 0. *)
Theorem webhook_enrolls_only_on_settlement (env : Env)
    (json : Exception + option Notification) (w : World) :
  enrollments (db (snd (serve (handleNotification env json) w)))
  = enrollments (db w)
  \/ exists n p,
       json = inr (Some n)
       /\ paymentStatus_of (transaction_status n) (fraud_status n) = settlement
       /\ filter (order_matches (order_id n)) (payments (db w)) = [p]
       /\ existsb (enrolled (pay_user_id p) (pay_course_id p))
                  (enrollments (db w)) = false
       /\ enrollments (db (snd (serve (handleNotification env json) w)))
          = (enrollments (db w)
               ++ [ {| enr_user_id := pay_user_id p;
                       enr_course_id := pay_course_id p;
                       progress := 0 |} ])%list.
Proof.
  destruct (handleNotification_cases env json w)
    as [[-> _] | (n & p & -> & Hc & Ha & Ho & Hf & ->)]; [left; reflexivity|].
  cbn [snd]. rewrite accepted_enrollments.
  destruct (paymentStatus_of (transaction_status n) (fraud_status n)) eqn:Hst;
    try (left; reflexivity).
  unfold insert_failure.
  destruct (outage env InsertEnrollment); [left; reflexivity|].
  cbn [enrollment_for enr_user_id enr_course_id].
  destruct (existsb _ (enrollments (db w))) eqn:Hex; [left; reflexivity|].
  right. exists n, p. repeat split; assumption.
Qed.

(** *** Redelivery *)

Lemma Database_ext (d d' : Database) :
  courses d = courses d' -> profiles d = profiles d' ->
  payments d = payments d' -> enrollments d = enrollments d' -> d = d'.
Proof. destruct d, d'; cbn; intros -> -> -> ->; reflexivity. Qed.

Lemma update_where_twice {A} (hit : A -> bool) (change : A -> A) (l : list A) :
  (forall a, hit (change a) = hit a) ->
  (forall a, change (change a) = change a) ->
  update_where hit change (update_where hit change l) = update_where hit change l.
Proof.
  intros Hh Hc. unfold update_where. rewrite map_map. apply map_ext.
  intros a. destruct (hit a) eqn:Ha; [now rewrite Hh, Ha, Hc | now rewrite Ha].
Qed.

Lemma response_ignores_console (env : Env)
    (json : Exception + option Notification) (w w' : World) :
  db w' = db w ->
  fst (serve (handleNotification env json) w')
  = fst (serve (handleNotification env json) w)
  /\ db (snd (serve (handleNotification env json) w'))
     = db (snd (serve (handleNotification env json) w)).
Proof.
  intros Hdb. run_script.
  destruct (client_refused _ _); cbn; [split; [reflexivity | exact Hdb]|].
  destruct json as [e|[n|]]; cbn; [split; [reflexivity | exact Hdb]| |].
  - destruct (Js.truthy (Deno_env_get env "MIDTRANS_SERVER_KEY")); cbn;
      [|split; [reflexivity | exact Hdb]].
    destruct (Js.truthy (signature_key n)); cbn;
      [|split; [reflexivity | exact Hdb]].
    destruct (verifyMidtransSignature _ _ _ _ _); cbn;
      [|split; [reflexivity | exact Hdb]].
    destruct (outage env UpdatePaymentStatus); cbn;
      [split; [reflexivity | exact Hdb]|].
    rewrite Hdb.
    destruct (single _); cbn; [split; reflexivity|].
    destruct (PaymentStatus_eqb _ _); cbn; [|split; reflexivity].
    unfold set_payments; cbn.
    match goal with |- context [insert_failure ?e ?r ?d] =>
      destruct (insert_failure e r d) as [err|] end; cbn;
      [|split; reflexivity].
    destruct (message err); cbn; [|split; reflexivity].
    destruct (negb _); cbn; split; reflexivity.
  - destruct (Js.truthy (Deno_env_get env "MIDTRANS_SERVER_KEY")); cbn;
      split; try reflexivity; exact Hdb.
Qed.

(** After a settlement the buyer is enrolled, or the store's insert
    fails on its own account: the insert of a second delivery fails the
    way the first one did, or with the duplicate-key error. *)
Lemma insert_after_settlement (env : Env) (n : Notification)
    (p : Payment) (w : World) :
  paymentStatus_of (transaction_status n) (fraud_status n) = settlement ->
  exists e,
    insert_failure env (enrollment_for p) (db (accepted_world env n p w))
    = Some e
    /\ match insert_failure env (enrollment_for p) (db w) with
       | Some e' => message e = None <-> message e' = None
       | None => message e <> None
       end.
Proof.
  intros Hst. unfold insert_failure at 1.
  destruct (outage env InsertEnrollment) as [err|] eqn:Ho.
  - exists err. split; [reflexivity|].
    unfold insert_failure. rewrite Ho. tauto.
  - rewrite accepted_enrollments, Hst. unfold insert_failure. rewrite Ho.
    destruct (existsb _ (enrollments (db w))) eqn:Hex.
    + rewrite Hex. eexists. split; [reflexivity | tauto].
    + rewrite existsb_app.
      cbn [existsb enrollment_for enr_user_id enr_course_id].
      fold (enrollment_for p). rewrite enrolled_own_row.
      rewrite Bool.orb_true_r. eexists. split; [reflexivity | discriminate].
Qed.

(** X9: redelivery is harmless.  Whatever is delivered, delivering it a
    second time is answered as the first time and leaves the store as
    the first delivery left it. *)
Theorem webhook_idempotent (env : Env) (json : Exception + option Notification)
    (w : World) :
  fst (serve (handleNotification env json)
             (snd (serve (handleNotification env json) w)))
  = fst (serve (handleNotification env json) w)
  /\ db (snd (serve (handleNotification env json)
                    (snd (serve (handleNotification env json) w))))
     = db (snd (serve (handleNotification env json) w)).
Proof.
  destruct (handleNotification_cases env json w)
    as [[Hdb _] | (n & p & -> & Hc & Ha & Ho & Hf & Hrun)].
  - destruct (response_ignores_console env json w _ Hdb) as [H1 H2].
    split; [exact H1 | now rewrite H2, Hdb].
  - rewrite Hrun. cbn [fst snd].
    set (st := paymentStatus_of (transaction_status n) (fraud_status n)).
    assert (Hf' : filter (order_matches (order_id n))
                         (payments (db (accepted_world env n p w)))
                  = [set_status st p]).
    { rewrite accepted_payments. rewrite filter_update_where by reflexivity.
      now rewrite Hf. }
    rewrite (handleNotification_accepted env n _ _ Hc Ha Ho Hf').
    cbn [fst snd].
    split.
    { rewrite !accepted_response_enrollments. fold st.
      destruct st eqn:Hst; try reflexivity.
      change (enrollment_for (set_status settlement p)) with (enrollment_for p).
      destruct (insert_after_settlement env n p w Hst) as (e & -> & He).
      destruct (insert_failure env (enrollment_for p) (db w)) as [e'|].
      - destruct (message e), (message e'); try reflexivity;
          exfalso; destruct He as [He1 He2];
          [discriminate (He2 eq_refl) | discriminate (He1 eq_refl)].
      - destruct (message e); [reflexivity | exfalso; now apply He]. }
    destruct (accepted_frame env n (set_status st p) (accepted_world env n p w))
      as (Hcourses & Hprofiles & _).
    apply Database_ext; try assumption.
    + rewrite !accepted_payments. apply update_where_twice; reflexivity.
    + rewrite (accepted_enrollments env n (set_status st p)).
      fold st. destruct st eqn:Hst; try reflexivity.
      change (enrollment_for (set_status settlement p)) with (enrollment_for p).
      destruct (insert_after_settlement env n p w Hst) as (e & -> & _).
      reflexivity.
Qed.

(** * Further properties of payment creation *)







(** *** Accepted requests *)







(** The buyer's request sent twice within the same millisecond: the
    second insert repeats the order id and is refused. *)
Example repeated_order_id_refused :
  serve (createIntent env_ok (Some "Bearer jwt-siti")
           (inr (Valid "c-101" 100000%float)))
        (world_of [intent pending] [])
  = (bad_request
       "Payment processing is temporarily unavailable. Please try again later.",
     {| db := db (world_of [intent pending] []);
        console := [(LogError, "Payment creation error:");
                    (LogError, "Payment creation error:")];
        charges := [] |}).
Proof. vm_compute. reflexivity. Qed.



(** *** What payment creation writes *)

Lemma forget_set_transaction (tid ptype : option string) (p : Payment) :
  forget_transaction (set_transaction tid ptype p) = forget_transaction p.
Proof. reflexivity. Qed.

(** X16: whatever the request, payment creation leaves courses, profiles
    and enrollments as they were.  Either it stores nothing and does not
    call the gateway, or it appends one pending intent (other rows keep
    everything but their gateway fields) and calls the gateway exactly
    once, for that intent's order id and amount, at the endpoint that
    [MIDTRANS_IS_PRODUCTION] selects: production only for the exact
    value "true". *)
Theorem createIntent_footprint (env : Env) (authorization : option string)
    (json : Exception + SafeParse) (w : World) :
  let w' := snd (serve (createIntent env authorization json) w) in
  courses (db w') = courses (db w)
  /\ profiles (db w') = profiles (db w)
  /\ enrollments (db w') = enrollments (db w)
  /\ ((payments (db w') = payments (db w) /\ charges w' = charges w)
      \/ exists row charge,
           status row = pending
           /\ map forget_transaction (payments (db w'))
              = map forget_transaction (payments (db w) ++ [row])
           /\ charges w' = (charges w ++ [charge])%list
           /\ charge_order_id charge = midtrans_order_id row
           /\ charge_gross_amount charge = amount row
           /\ charge_url charge = midtrans_endpoint env).
Proof.
  cbv zeta. run_script.
  destruct (client_refused _ _); cbn;
    [repeat split; left; split; reflexivity|].
  destruct (Js.truthy authorization) as [authHeader|]; cbn;
    [|repeat split; left; split; reflexivity].
  destruct (auth_getUser env _) as [user|]; cbn;
    [|repeat split; left; split; reflexivity].
  destruct json as [e | [issue | courseId amount_]]; cbn;
    try (repeat split; left; split; reflexivity).
  destruct (outage env SelectCourse); cbn;
    [repeat split; left; split; reflexivity|].
  destruct (single _) as [err | course]; cbn;
    [repeat split; left; split; reflexivity|].
  destruct (negb (is_free course) && _); cbn;
    [repeat split; left; split; reflexivity|].
  destruct (payment_insert_failure _ _ _); cbn;
    [repeat split; left; split; reflexivity|].
  assert (Herase : forall tid ptype l,
    map forget_transaction
        (update_where (fun p => pay_id p =? generated_id env)
                      (set_transaction tid ptype) l)
    = map forget_transaction l).
  { intros. apply map_update_where_erased. reflexivity. }
  destruct (outage env SelectProfile); cbn;
    [|destruct (single _); cbn];
    (match goal with |- context [midtrans env ?r] =>
       destruct (midtrans env r) as [ex | [|] d] end; cbn;
     [ | destruct (outage env UpdatePaymentTransaction); cbn | ]);
    repeat split; right; eexists; eexists;
    (split; [|split; [|split; [reflexivity | repeat split]]]);
    try reflexivity; try apply Herase.
  all: reflexivity.
Qed.

(** *** The error strings of payment creation *)

Ltac mapped_error :=
  right; right; left; eexists; split; [reflexivity | cbn; tauto].

Ltac thrown_exception e :=
  destruct e as [m|];
  [ destruct (getUserMessage_cases m) as [(s & Hs & Hin) | (Hs & Hin)];
    rewrite Hs;
    [ right; right; left; exists s; split; [reflexivity | exact Hin]
    | right; right; right; exists m; split; [reflexivity | exact Hin] ]
  | mapped_error ].

(** X30: every response of payment creation is a success, or the
    schema's first violation message (["Invalid input"] when it has
    none), or a 400 whose error is what [getUserMessage] gives for the
    thrown error: a message of the fixed mapping or the generic default
    and, for an error whose message names a member inherited from
    [Object.prototype], that member, which is not a string. *)
Theorem createIntent_error_messages (env : Env) (authorization : option string)
    (json : Exception + SafeParse) (w : World) :
  let r := fst (serve (createIntent env authorization json) w) in
  (exists url oid tid,
      r = {| http_status := 200; body := PaymentBody url oid tid |})
  \/ (exists issue,
         json = inr (Invalid issue)
         /\ r = {| http_status := 400;
                   body := ErrorBody
                             (JString (Js.template
                                         (or_else issue (Some "Invalid input")))) |})
  \/ (exists s,
         r = {| http_status := 400; body := ErrorBody (JString s) |}
         /\ In s user_messages)
  \/ (exists name,
         r = {| http_status := 400; body := ErrorBody (JInherited name) |}
         /\ In name Object_prototype).
Proof.
  run_script.
  destruct (client_refused _ _) as [refusal|]; cbn;
    [thrown_exception refusal|].
  destruct (Js.truthy authorization) as [authHeader|]; cbn; [|mapped_error].
  destruct (auth_getUser env _) as [user|]; cbn; [|mapped_error].
  destruct json as [e | [issue | courseId amount_]]; cbn.
  - thrown_exception e.
  - right; left. exists issue. split; reflexivity.
  - destruct (outage env SelectCourse); cbn; [mapped_error|].
    destruct (single _) as [err | course]; cbn; [mapped_error|].
    destruct (negb (is_free course) && _); cbn; [mapped_error|].
    destruct (payment_insert_failure _ _ _); cbn; [mapped_error|].
    destruct (outage env SelectProfile); cbn.
    + destruct (midtrans env _) as [e | ok data]; cbn; [thrown_exception e|].
      destruct ok; cbn; [|mapped_error].
      destruct (outage env UpdatePaymentTransaction); cbn; left; eauto.
    + destruct (single _) as [err | profile]; cbn;
        (destruct (midtrans env _) as [e | ok data]; cbn; [thrown_exception e|]);
        (destruct ok; cbn; [|mapped_error]);
        destruct (outage env UpdatePaymentTransaction); cbn; left; eauto.
Qed.

(** *** The payment URL *)

(** X17: the payment URL in the answer is the URL of the first action
    named "generate-qr-code" when that action has a non-empty URL; when
    the gateway's answer has no action of that name (or no actions at
    all) it is the redirect URL. *)
Theorem payment_url_preference (data : MidtransData) :
  (forall before a after url,
      md_actions data = Some (before ++ a :: after)%list ->
      (forall b, In b before -> action_name b <> "generate-qr-code") ->
      action_name a = "generate-qr-code" ->
      action_url a = Some url -> url <> "" ->
      payment_url_of data = Some url)
  /\ ((md_actions data = None
       \/ exists actions,
            md_actions data = Some actions
            /\ forall b, In b actions -> action_name b <> "generate-qr-code") ->
      payment_url_of data = md_redirect_url data).
Proof.
  unfold payment_url_of, or_else. split.
  - intros before a after url -> Hbefore Ha Hurl Hne.
    assert (Hfind : find (fun a => action_name a =? "generate-qr-code")
                         (before ++ a :: after) = Some a).
    { induction before as [|b before IH]; cbn.
      - now rewrite Ha.
      - destruct (String.eqb_spec (action_name b) "generate-qr-code") as [Hb|_].
        + exfalso. apply (Hbefore b); [left; reflexivity | exact Hb].
        + apply IH. intros c Hc. apply Hbefore. right. exact Hc. }
    rewrite Hfind, Hurl. cbn.
    destruct (String.eqb_spec url ""); [contradiction | reflexivity].
  - intros [-> | (actions & -> & Hnone)]; [reflexivity|].
    assert (Hfind : find (fun a => action_name a =? "generate-qr-code") actions
                    = None).
    { induction actions as [|b actions IH]; cbn; [reflexivity|].
      destruct (String.eqb_spec (action_name b) "generate-qr-code") as [Hb|_].
      - exfalso. apply (Hnone b); [left; reflexivity | exact Hb].
      - apply IH. intros c Hc. apply Hnone. right. exact Hc. }
    now rewrite Hfind.
Qed.

Lemma payment_url_preference_witness :
  payment_url_of charge_answer
  = Some "https://api.sandbox.midtrans.com/v2/gopay/tx-0001/qr-code".
Proof.
  apply (proj1 (payment_url_preference charge_answer) []
           {| action_name := "generate-qr-code";
              action_url := Some "https://api.sandbox.midtrans.com/v2/gopay/tx-0001/qr-code" |}
           []).
  - reflexivity.
  - intros b [].
  - reflexivity.
  - reflexivity.
  - discriminate.
Defined.

(** *** From the request to the enrollment *)



(** * Properties of certificate generation *)

Ltac run_certificate :=
  unfold GenerateCertificate.serve, GenerateCertificate.generateCertificate,
    GenerateCertificate.try_catch, GenerateCertificate.bind,
    GenerateCertificate.createClient, GenerateCertificate.req_json, GenerateCertificate.ret,
    GenerateCertificate.throw, GenerateCertificate.respond,
    GenerateCertificate.console_log, GenerateCertificate.console_error,
    GenerateCertificate.console_write, GenerateCertificate.get_world,
    GenerateCertificate.select_course, GenerateCertificate.select_enrollment,
    GenerateCertificate.select_certificate, GenerateCertificate.select_title,
    GenerateCertificate.select_full_name,
    GenerateCertificate.insert_certificate in *;
  cbn beta iota zeta delta
    [fst snd GenerateCertificate.store GenerateCertificate.titles
     GenerateCertificate.certificates GenerateCertificate.console
     GenerateCertificate.http_status GenerateCertificate.body] in *.

Example scenario_certificate :
  GenerateCertificate.serve
    (GenerateCertificate.generateCertificate env_certificates
       (Some "Bearer jwt-siti") (inr (GenerateCertificate.Valid "c-101")))
    (certificate_world (db (world_of [] [enrollment_at 100])))
  = ({| GenerateCertificate.http_status := 200;
        GenerateCertificate.body :=
          GenerateCertificate.Issued
            (new_certificate env_certificates siti "c-101")
            (Some "Dasar Pemrograman") (Some "Siti")
            "https://abcd1234.lovable.app/certificate/verify/CERT-2024-000123" |},
     {| GenerateCertificate.store := db (world_of [] [enrollment_at 100]);
        GenerateCertificate.titles := [("c-101", "Dasar Pemrograman")];
        GenerateCertificate.certificates :=
          [new_certificate env_certificates siti "c-101"];
        GenerateCertificate.console :=
          [(LogInfo, "Certificate generated successfully:")] |}).
Proof. vm_compute. reflexivity. Qed.

(** X20: a certificate is issued or returned (status 200) only to an
    authenticated caller, for a course that exists, when that caller has
    exactly one enrollment in the course and its progress is at least
    100. *)
Theorem certificate_requires_completion (env : GenerateCertificate.Env)
    (authorization : option string)
    (json : Exception + GenerateCertificate.SafeParse)
    (w : GenerateCertificate.World) :
  GenerateCertificate.http_status
    (fst (GenerateCertificate.serve
            (GenerateCertificate.generateCertificate env authorization json) w))
  = 200 ->
  exists authHeader user courseId course enrollment,
    Js.truthy authorization = Some authHeader
    /\ auth_getUser (GenerateCertificate.platform env)
         (Js.replace "Bearer " "" authHeader) = Some user
    /\ json = inr (GenerateCertificate.Valid courseId)
    /\ filter (fun c => course_id_ c =? courseId)
              (courses (GenerateCertificate.store w)) = [course]
    /\ filter (enrolled (user_id user) courseId)
              (enrollments (GenerateCertificate.store w)) = [enrollment]
    /\ 100 <= progress enrollment.
Proof.
  run_certificate.
  destruct (client_refused _ _); cbn; [discriminate|].
  destruct (Js.truthy authorization) as [authHeader|] eqn:Hh; cbn;
    [|discriminate].
  destruct (auth_getUser _ _) as [user|] eqn:Hu; cbn; [|discriminate].
  destruct json as [e | [issue | courseId]]; cbn; try discriminate.
  destruct (GenerateCertificate.outage env GenerateCertificate.CheckCourse);
    cbn; [discriminate|].
  destruct (filter _ (courses _)) as [|course [|c' cs]] eqn:Hc; cbn;
    try discriminate.
  destruct (GenerateCertificate.outage env GenerateCertificate.SelectEnrollment);
    cbn; [discriminate|].
  destruct (filter _ (enrollments _)) as [|enrollment [|e' es]] eqn:He; cbn;
    try discriminate.
  destruct (Z.ltb_spec (progress enrollment) 100) as [Hlt | Hge]; cbn;
    [discriminate|].
  intros _. exists authHeader, user, courseId, course, enrollment.
  repeat split; assumption.
Qed.

Lemma certificate_requires_completion_witness :
  exists authHeader user courseId course enrollment,
    Js.truthy (Some "Bearer jwt-siti") = Some authHeader
    /\ auth_getUser (GenerateCertificate.platform env_certificates)
         (Js.replace "Bearer " "" authHeader) = Some user
    /\ inr (GenerateCertificate.Valid "c-101")
       = (inr (GenerateCertificate.Valid courseId)
          : Exception + GenerateCertificate.SafeParse)
    /\ filter (fun c => course_id_ c =? courseId)
              (courses (db (world_of [] [enrollment_at 100]))) = [course]
    /\ filter (enrolled (user_id user) courseId)
              (enrollments (db (world_of [] [enrollment_at 100])))
       = [enrollment]
    /\ 100 <= progress enrollment.
Proof.
  apply (certificate_requires_completion env_certificates
           (Some "Bearer jwt-siti") (inr (GenerateCertificate.Valid "c-101"))
           (certificate_world (db (world_of [] [enrollment_at 100])))).
  vm_compute. reflexivity.
Defined.




(** *** Issuing *)







(** *** What certificate generation writes and answers *)

Ltac certificates_unchanged :=
  split; [reflexivity | split; [reflexivity | left; reflexivity]].

(** X24: whatever the request, certificate generation leaves the other
    tables as they were and never changes or removes a certificate; it
    appends at most one row, and then the row is for the authenticated
    caller and the requested course. *)
Theorem certificate_footprint (env : GenerateCertificate.Env)
    (authorization : option string)
    (json : Exception + GenerateCertificate.SafeParse)
    (w : GenerateCertificate.World) :
  let w' :=
    snd (GenerateCertificate.serve
           (GenerateCertificate.generateCertificate env authorization json) w) in
  GenerateCertificate.store w' = GenerateCertificate.store w
  /\ GenerateCertificate.titles w' = GenerateCertificate.titles w
  /\ (GenerateCertificate.certificates w' = GenerateCertificate.certificates w
      \/ exists authHeader user courseId,
           Js.truthy authorization = Some authHeader
           /\ auth_getUser (GenerateCertificate.platform env)
                (Js.replace "Bearer " "" authHeader) = Some user
           /\ json = inr (GenerateCertificate.Valid courseId)
           /\ GenerateCertificate.certificates w'
              = (GenerateCertificate.certificates w
                   ++ [new_certificate env user courseId])%list).
Proof.
  cbv zeta. run_certificate.
  destruct (client_refused _ _); cbn; [certificates_unchanged|].
  destruct (Js.truthy authorization) as [authHeader|] eqn:Hh; cbn;
    [|certificates_unchanged].
  destruct (auth_getUser _ _) as [user|] eqn:Hu; cbn;
    [|certificates_unchanged].
  destruct json as [e | [issue | courseId]]; cbn;
    try (certificates_unchanged).
  destruct (GenerateCertificate.outage env GenerateCertificate.CheckCourse);
    cbn; [certificates_unchanged|].
  destruct (single (filter _ (courses _))) as [err | course] eqn:Hc; cbn;
    [certificates_unchanged|].
  destruct (GenerateCertificate.outage env GenerateCertificate.SelectEnrollment);
    cbn; [certificates_unchanged|].
  destruct (single (filter (enrolled _ _) _)) as [err | enrollment]; cbn;
    [certificates_unchanged|].
  destruct (progress enrollment <? 100)%Z; cbn;
    [certificates_unchanged|].
  destruct (GenerateCertificate.outage env GenerateCertificate.SelectCertificate);
    cbn;
    [|destruct (GenerateCertificate.maybeSingle _); cbn;
      [certificates_unchanged|]];
    (destruct (GenerateCertificate.outage env GenerateCertificate.SelectTitle);
     cbn; [|rewrite Hc; cbn]);
    (destruct (GenerateCertificate.outage env GenerateCertificate.SelectFullName);
     cbn; [|destruct (single (filter (fun p => profile_id p =? _) _)); cbn]);
    (destruct (GenerateCertificate.outage env
                 GenerateCertificate.InsertCertificate); cbn;
     [certificates_unchanged|]);
    (split; [reflexivity | split; [reflexivity|]]);
    right; exists authHeader, user, courseId;
    (split; [reflexivity | split; [exact Hu | split; reflexivity]]).
Qed.

Lemma certificate_getUserMessage_cases (m : string) :
  (exists s, GenerateCertificate.getUserMessage m = JString s
             /\ In s certificate_messages)
  \/ (GenerateCertificate.getUserMessage m = JInherited m
      /\ In m Object_prototype).
Proof.
  unfold GenerateCertificate.getUserMessage, property.
  cbn [own_property GenerateCertificate.errorMap].
  repeat match goal with
         | |- context [if ?k =? m then _ else _] =>
             destruct (k =? m);
             [left; eexists; split; [reflexivity | cbn; tauto] |]
         end.
  destruct (existsb (String.eqb m) Object_prototype) eqn:E.
  - right. split; [reflexivity|].
    apply existsb_exists in E. destruct E as (x & Hx & Hmx).
    apply String.eqb_eq in Hmx. now subst x.
  - left. eexists. split; [reflexivity | cbn; tauto].
Qed.

Ltac certificate_mapped :=
  right; right; left; eexists; split; [reflexivity | cbn; tauto].

Ltac certificate_thrown e :=
  destruct e as [m|];
  [ destruct (certificate_getUserMessage_cases m)
      as [(s & Hs & Hin) | (Hs & Hin)];
    rewrite Hs;
    [ right; right; left; exists s; split; [reflexivity | exact Hin]
    | right; right; right; exists m; split; [reflexivity | exact Hin] ]
  | certificate_mapped ].

(** X25: every answer of certificate generation is a 200 with a
    certificate, or the schema's first violation message ("Invalid
    input" when it has none), or a 400 whose error is what the function's
    own [getUserMessage] gives for the thrown error: a message of its
    mapping or the generic default and, for an error whose message names
    a member inherited from [Object.prototype], that member. *)
Theorem certificate_error_messages (env : GenerateCertificate.Env)
    (authorization : option string)
    (json : Exception + GenerateCertificate.SafeParse)
    (w : GenerateCertificate.World) :
  let r :=
    fst (GenerateCertificate.serve
           (GenerateCertificate.generateCertificate env authorization json) w) in
  (GenerateCertificate.http_status r = 200
   /\ exists certificate,
        (exists message,
            GenerateCertificate.body r
            = GenerateCertificate.Existing certificate message)
        \/ exists course_title user_name verification_url,
             GenerateCertificate.body r
             = GenerateCertificate.Issued certificate course_title user_name
                                          verification_url)
  \/ (exists issue,
         json = inr (GenerateCertificate.Invalid issue)
         /\ r = certificate_refused
                  (Js.template (or_else issue (Some "Invalid input"))))
  \/ (exists s, r = certificate_refused s /\ In s certificate_messages)
  \/ (exists name,
         r = {| GenerateCertificate.http_status := 400;
                GenerateCertificate.body :=
                  GenerateCertificate.ErrorBody (JInherited name) |}
         /\ In name Object_prototype).
Proof.
  cbv zeta. run_certificate.
  destruct (client_refused _ _) as [refusal|]; cbn;
    [certificate_thrown refusal|].
  destruct (Js.truthy authorization) as [authHeader|]; cbn;
    [|certificate_mapped].
  destruct (auth_getUser _ _) as [user|]; cbn; [|certificate_mapped].
  destruct json as [e | [issue | courseId]]; cbn.
  - certificate_thrown e.
  - right; left. exists issue. split; reflexivity.
  - destruct (GenerateCertificate.outage env GenerateCertificate.CheckCourse);
      cbn; [certificate_mapped|].
    destruct (single (filter _ (courses _))) as [err | course] eqn:Hc; cbn;
      [certificate_mapped|].
    destruct (GenerateCertificate.outage env
                GenerateCertificate.SelectEnrollment);
      cbn; [certificate_mapped|].
    destruct (single (filter (enrolled _ _) _)) as [err | enrollment]; cbn;
      [certificate_mapped|].
    destruct (progress enrollment <? 100)%Z; cbn; [certificate_mapped|].
    destruct (GenerateCertificate.outage env
                GenerateCertificate.SelectCertificate); cbn;
      [|destruct (GenerateCertificate.maybeSingle _) as [cert|]; cbn;
        [left; split; [reflexivity | eexists; left; eexists; reflexivity]|]];
      (destruct (GenerateCertificate.outage env GenerateCertificate.SelectTitle);
       cbn; [|rewrite Hc; cbn]);
      (destruct (GenerateCertificate.outage env
                   GenerateCertificate.SelectFullName);
       cbn; [|destruct (single (filter (fun p => profile_id p =? _) _)); cbn]);
      (destruct (GenerateCertificate.outage env
                   GenerateCertificate.InsertCertificate); cbn;
       [certificate_mapped|]);
      left; (split; [reflexivity | eexists; right; do 3 eexists; reflexivity]).
Qed.

(** *** The QR code URL *)

Lemma encoded_char_safe (c : ascii) :
  url_safe (JsUrl.upper_hex_digit (N_of_ascii c / 16)) = true
  /\ url_safe (JsUrl.upper_hex_digit (N_of_ascii c mod 16)) = true.
Proof.
  destruct c as [[] [] [] [] [] [] [] []]; vm_compute; split; reflexivity.
Qed.

Lemma encodeURIComponent_safe (s : string) :
  forallb url_safe (list_ascii_of_string (JsUrl.encodeURIComponent s)) = true.
Proof.
  induction s as [|c s IH]; [reflexivity|].
  cbn [JsUrl.encodeURIComponent].
  destruct (JsUrl.unreserved c) eqn:Hc; cbn [list_ascii_of_string forallb].
  - unfold url_safe at 1. rewrite Hc. exact IH.
  - destruct (encoded_char_safe c) as [-> ->]. exact IH.
Qed.

(** X26: whatever the verification URL contains, the QR code URL is the
    fixed address of the QR service followed by a [data] parameter made
    only of letters, digits, [-_.!~*'()] and percent escapes: no
    character of the verification URL can end the parameter or add
    another one. *)
Theorem qr_data_is_escaped (verificationUrl : string) :
  exists data,
    GenerateCertificate.qrCodeUrl_of verificationUrl
    = "https://api.qrserver.com/v1/create-qr-code/?size=400x400&data=" ++ data
    /\ forallb url_safe (list_ascii_of_string data) = true.
Proof.
  exists (JsUrl.encodeURIComponent verificationUrl).
  split; [reflexivity | apply encodeURIComponent_safe].
Qed.

Lemma decode_escape (c : ascii) :
  JsUrl.unreserved c = false ->
  hex_value (JsUrl.upper_hex_digit (N_of_ascii c / 16)) = Some (N_of_ascii c / 16)%N
  /\ hex_value (JsUrl.upper_hex_digit (N_of_ascii c mod 16))
     = Some (N_of_ascii c mod 16)%N
  /\ ascii_of_N (16 * (N_of_ascii c / 16) + N_of_ascii c mod 16) = c.
Proof.
  destruct c as [[] [] [] [] [] [] [] []]; vm_compute;
    first [discriminate | intros _; repeat split].
Qed.

Lemma unreserved_not_percent (c : ascii) :
  JsUrl.unreserved c = true -> Ascii.eqb c "%" = false.
Proof.
  destruct c as [[] [] [] [] [] [] [] []]; vm_compute;
    first [discriminate | reflexivity].
Qed.

Lemma percent_decode_encode (s : string) :
  percent_decode (JsUrl.encodeURIComponent s) = s.
Proof.
  induction s as [|c s IH]; [reflexivity|].
  cbn [JsUrl.encodeURIComponent].
  destruct (JsUrl.unreserved c) eqn:Hc.
  - cbn [percent_decode]. rewrite (unreserved_not_percent c Hc), IH. reflexivity.
  - destruct (decode_escape c Hc) as (Hh & Hl & Hb).
    cbn [percent_decode]. rewrite Ascii.eqb_refl, Hh, Hl, Hb, IH. reflexivity.
Qed.

Lemma string_app_inv_head (p a b : string) : p ++ a = p ++ b -> a = b.
Proof.
  induction p as [|c p IH]; cbn; [exact (fun H => H)|].
  intros H. injection H as H. exact (IH H).
Qed.

(** X27: the QR code URL determines the verification URL: two
    verification URLs with the same QR code URL are equal, so a QR code
    never stands for two certificates. *)
Theorem qr_code_url_injective (verificationUrl verificationUrl' : string) :
  GenerateCertificate.qrCodeUrl_of verificationUrl
  = GenerateCertificate.qrCodeUrl_of verificationUrl' ->
  verificationUrl = verificationUrl'.
Proof.
  unfold GenerateCertificate.qrCodeUrl_of. intros H.
  apply string_app_inv_head in H.
  rewrite <- (percent_decode_encode verificationUrl),
          <- (percent_decode_encode verificationUrl').
  now rewrite H.
Qed.

Lemma qr_code_url_injective_witness :
  "https://abcd1234.lovable.app/certificate/verify/CERT 1&2"
  = percent_decode
      "https%3A%2F%2Fabcd1234.lovable.app%2Fcertificate%2Fverify%2FCERT%201%262".
Proof.
  apply (qr_code_url_injective
           "https://abcd1234.lovable.app/certificate/verify/CERT 1&2"
           (percent_decode
              "https%3A%2F%2Fabcd1234.lovable.app%2Fcertificate%2Fverify%2FCERT%201%262")).
  vm_compute. reflexivity.
Defined.

(** *** The project of the verification URL *)

Lemma lacks_cons (c x : ascii) (s : string) :
  lacks c (String x s) = true -> Ascii.eqb x c = false /\ lacks c s = true.
Proof.
  unfold lacks. cbn. intros H. apply Bool.andb_true_iff in H.
  destruct H as [Hx Hs]. split; [|exact Hs].
  now destruct (Ascii.eqb x c).
Qed.

Lemma prefix_head_differs (c x : ascii) (rest s : string) :
  Ascii.eqb x c = false -> prefix (String c rest) (String x s) = false.
Proof.
  intros H. cbn. destruct (ascii_dec c x) as [->|_]; [|reflexivity].
  rewrite Ascii.eqb_refl in H. discriminate.
Qed.

(** Characters that cannot start a separator only extend the piece. *)
Lemma split_from_lacking (c : ascii) (rest a piece s : string) :
  lacks c a = true ->
  JsUrl.split_from (String c rest) 0 piece (a ++ s)
  = JsUrl.split_from (String c rest) 0 (piece ++ a) s.
Proof.
  revert piece. induction a as [|x a IH]; intros piece Ha.
  - cbn [append]. replace (piece ++ "") with piece; [reflexivity|].
    induction piece as [|y piece IHp]; cbn; [reflexivity | now rewrite <- IHp].
  - apply lacks_cons in Ha. destruct Ha as [Hx Ha].
    cbn [append JsUrl.split_from].
    rewrite (prefix_head_differs c x rest (a ++ s) Hx).
    rewrite (IH (piece ++ String x "") Ha).
    rewrite string_app_assoc. reflexivity.
Qed.

Lemma split_from_head (separator : string) (skip : nat) (piece s : string) :
  exists more rest,
    JsUrl.split_from separator skip piece s = (piece ++ more) :: rest.
Proof.
  revert skip piece. induction s as [|x s IH]; intros skip piece.
  - exists "", []. cbn.
    replace (piece ++ "") with piece; [reflexivity|].
    induction piece as [|y piece IHp]; cbn; [reflexivity | now rewrite <- IHp].
  - cbn [JsUrl.split_from]. destruct skip as [|skip].
    + destruct (prefix separator (String x s)).
      * exists "". eexists.
        replace (piece ++ "") with piece; [reflexivity|].
        clear. induction piece as [|y piece IHp]; cbn;
          [reflexivity | now rewrite <- IHp].
      * destruct (IH 0%nat (piece ++ String x "")) as (more & rest & ->).
        exists (String x more), rest. now rewrite string_app_assoc.
    + apply IH.
Qed.

Lemma prefix_app (p s : string) : prefix p (p ++ s) = true.
Proof.
  induction p as [|c p IH]; cbn; [destruct s; reflexivity|].
  destruct (ascii_dec c c) as [_|Hne]; [exact IH | contradiction].
Qed.

Lemma split_from_skip (separator r piece s : string) :
  JsUrl.split_from separator (String.length r) piece (r ++ s)
  = JsUrl.split_from separator 0 piece s.
Proof. induction r as [|x r IH]; cbn; [reflexivity | exact IH]. Qed.

(** At a separator the piece ends and the next one starts after it. *)
Lemma split_from_separator (c : ascii) (rest piece s : string) :
  JsUrl.split_from (String c rest) 0 piece (String c rest ++ s)
  = piece :: JsUrl.split_from (String c rest) 0 "" s.
Proof.
  change (String c rest ++ s) with (String c (rest ++ s)).
  cbn [JsUrl.split_from].
  change (String c (rest ++ s)) with (String c rest ++ s).
  rewrite prefix_app. cbn [String.length Nat.sub].
  rewrite Nat.sub_0_r. now rewrite split_from_skip.
Qed.

(** X28: for a [SUPABASE_URL] of the form
    [<scheme>//<project>.<domain>], where scheme and project contain no
    slash and the project no dot, the project is recovered, so the
    verification URL is
    [https://<project>.lovable.app/certificate/verify/<number>]. *)
Theorem projectId_of_supabase_url (scheme project domain : string) :
  lacks "/" scheme = true ->
  lacks "/" project = true ->
  lacks "." project = true ->
  GenerateCertificate.projectId_of (scheme ++ "//" ++ project ++ "." ++ domain)
  = project.
Proof.
  intros Hscheme Hslash Hdot.
  unfold GenerateCertificate.projectId_of, JsUrl.split.
  rewrite (split_from_lacking "/" "/" scheme "" _ Hscheme).
  rewrite split_from_separator. cbn [nth_error].
  rewrite (split_from_lacking "/" "/" project "" _ Hslash).
  rewrite (split_from_lacking "/" "/" "." _ domain eq_refl).
  destruct (split_from_head "//" 0 (("" ++ project) ++ ".") domain)
    as (more & rest & ->).
  cbn [nth_error append]. rewrite string_app_assoc.
  rewrite (split_from_lacking "." "" project "" _ Hdot).
  rewrite split_from_separator. reflexivity.
Qed.

Lemma projectId_of_supabase_url_witness :
  GenerateCertificate.projectId_of "https://abcd1234.supabase.co" = "abcd1234".
Proof.
  apply (projectId_of_supabase_url "https:" "abcd1234" "supabase.co");
    reflexivity.
Defined.

(** *** From the payment to the certificate *)


